(** * SampleApp (crash-diagnostics): a shallow embedding of [app/src/main.py]

    The application is a thin layer of callbacks over the Velocitas SDK.
    The embedding keeps the shape of the Python module:

    - Python values, [str()] and [json.dumps] as the handlers use them;
    - a file system, for the import-time set-up of the diagnostic log
      directory;
    - the runtime the module acts on (the app object, the MQTT side, the two
      loggers, the random generator, the data broker, the file system),
      threaded through a state-and-exception monad;
    - the module itself: the log set-up, [random_vehicle_crash], the three
      handlers, [on_start] and [main].

    Definitions come first, the properties after them. *)

From Stdlib Require Import ZArith QArith Floats Lia Ascii String List.
From Stdlib Require Import DecimalString DecimalZ Uint63.
From stdpp Require Import base option gmap strings.

Set Warnings "-register-all,-inexact-float".

Local Open Scope Z_scope.

(** * Python values *)

(** The scalar values a data point can carry. Text is a sequence of characters
    with code points below 256. *)
Inductive pyval : Type :=
| PyNone
| PyBool (b : bool)
| PyInt (z : Z)
| PyFloat (f : float)
| PyStr (s : string).

(** The objects the handlers hand to [json.dumps]: scalars and [dict]s with
    text keys, in insertion order. *)
Inductive pyobj : Type :=
| PyVal (v : pyval)
| PyDict (items : list (string * pyobj)).

(** [d[k]] on a dict object. *)
Fixpoint assoc_get (k : string) (items : list (string * pyobj)) : option pyobj :=
  match items with
  | [] => None
  | (k', o) :: rest => if String.eqb k k' then Some o else assoc_get k rest
  end.

Definition py_getitem (o : pyobj) (k : string) : option pyobj :=
  match o with
  | PyDict items => assoc_get k items
  | PyVal _ => None
  end.

(** [o[k1][k2]...]. *)
Fixpoint py_path (o : pyobj) (keys : list string) : option pyobj :=
  match keys with
  | [] => Some o
  | k :: rest =>
      match py_getitem o k with
      | Some o' => py_path o' rest
      | None => None
      end
  end.

(** The double quote, the backslash and the slash. *)
Definition dquote : ascii := "034"%char.
Definition backslash : ascii := "092"%char.
Definition slash : ascii := "/"%char.
Definition DQ : string := String dquote EmptyString.

(** [int.__repr__]: the decimal numeral, with a leading minus sign below
    zero. *)
Definition int_repr (z : Z) : string := NilZero.string_of_int (Z.to_int z).

(** Lower-case hexadecimal digit, for the [\u00xx] escapes. *)
Definition hex_digit (n : N) : ascii :=
  ascii_of_N (if (n <? 10)%N then 48 + n else 87 + n)%N.

(** [json.encoder.encode_basestring_ascii], character by character:
    backslash and double quote are escaped, the printable range from space to
    tilde is kept, the five named control characters get their short escape
    and every other character its [\u00xx] escape. *)
Definition escape_char (c : ascii) : string :=
  let n := N_of_ascii c in
  if Ascii.eqb c backslash then String backslash (String backslash EmptyString)
  else if Ascii.eqb c dquote then String backslash (String dquote EmptyString)
  else if ((32 <=? n) && (n <=? 126))%N then String c EmptyString
  else if (n =? 8)%N then String backslash "b"
  else if (n =? 12)%N then String backslash "f"
  else if (n =? 10)%N then String backslash "n"
  else if (n =? 13)%N then String backslash "r"
  else if (n =? 9)%N then String backslash "t"
  else String backslash
         (String "u" (String "0" (String "0"
           (String (hex_digit (n / 16)) (String (hex_digit (n mod 16)) EmptyString))))).

Fixpoint escape_text (s : string) : string :=
  match s with
  | EmptyString => EmptyString
  | String c rest => escape_char c +:+ escape_text rest
  end.

Definition encode_basestring_ascii (s : string) : string :=
  DQ +:+ escape_text s +:+ DQ.

(** A text with no character to escape is encoded between two quotes. *)
Definition quoted (s : string) : string := DQ +:+ s +:+ DQ.

Section Python.

(** [float.__repr__] is the interpreter's shortest round-trip printer; the
    application only passes its result on, so it is a parameter here. *)
Variable float_repr : float -> string.

(** [str(v)], which is also what [%s] and an f-string field produce. *)
Definition py_str (v : pyval) : string :=
  match v with
  | PyNone => "None"
  | PyBool true => "True"
  | PyBool false => "False"
  | PyInt z => int_repr z
  | PyFloat f => float_repr f
  | PyStr s => s
  end.

(** [json.encoder.floatstr] with [allow_nan] left at its default. *)
Definition floatstr (o : float) : string :=
  if negb (PrimFloat.eqb o o) then "NaN"
  else if PrimFloat.eqb o infinity then "Infinity"
  else if PrimFloat.eqb o neg_infinity then "-Infinity"
  else float_repr o.

Definition json_scalar (v : pyval) : string :=
  match v with
  | PyNone => "null"
  | PyBool true => "true"
  | PyBool false => "false"
  | PyInt z => int_repr z
  | PyFloat f => floatstr f
  | PyStr s => encode_basestring_ascii s
  end.

(** [json.dumps(o)] with the default separators [", "] and [": "]. *)
Fixpoint json_dumps (o : pyobj) : string :=
  match o with
  | PyVal v => json_scalar v
  | PyDict items =>
      let fix members (l : list (string * pyobj)) : string :=
        match l with
        | [] => EmptyString
        | [(k, x)] => encode_basestring_ascii k +:+ ": " +:+ json_dumps x
        | (k, x) :: rest =>
            encode_basestring_ascii k +:+ ": " +:+ json_dumps x +:+ ", " +:+ members rest
        end in
      "{" +:+ members items +:+ "}"
  end.

End Python.

(** Doubles as rationals: the exact value of a finite double, none for an
    infinity or a NaN. *)
Definition SF2Q (x : spec_float) : option Q :=
  match x with
  | S754_zero _ => Some 0%Q
  | S754_finite s m e =>
      let n := if s then Zneg m else Zpos m in
      Some match e with
           | Zneg p => (n # 2 ^ p)%Q
           | _ => inject_Z (n * 2 ^ e)
           end
  | S754_infinity _ | S754_nan => None
  end.

Definition float_value (x : float) : option Q := SF2Q (Prim2SF x).

(** * Outcomes and exceptions *)

Inductive exn : Type :=
| KeyError (key : string)
| NameError (name : string)
| BrokerError (path : string)
| OSError (kind path : string).

(** How a call ends: it returns, it raises, or (an awaited call) it never
    completes and the coroutine stays suspended. *)
Inductive outcome (A : Type) : Type :=
| Return (a : A)
| Raise (e : exn)
| Pending.
Arguments Return {A} a.
Arguments Raise {A} e.
Arguments Pending {A}.

(** * The file system

    A tree of directories and regular files below the working directory. A
    directory keeps its entries in the order [os.listdir] reports them. *)

Inductive node : Type :=
| File (content : string)
| Dir (entries : list (string * node)).

Fixpoint entry_get (name : string) (es : list (string * node)) : option node :=
  match es with
  | [] => None
  | (n, x) :: rest => if String.eqb name n then Some x else entry_get name rest
  end.

(** Replace the entry of that name, or add it at the end. *)
Fixpoint entry_set (name : string) (x : node) (es : list (string * node))
  : list (string * node) :=
  match es with
  | [] => [(name, x)]
  | (n, y) :: rest =>
      if String.eqb name n then (n, x) :: rest else (n, y) :: entry_set name x rest
  end.

Fixpoint entry_del (name : string) (es : list (string * node)) : list (string * node) :=
  match es with
  | [] => []
  | (n, y) :: rest =>
      if String.eqb name n then entry_del name rest else (n, y) :: entry_del name rest
  end.

Fixpoint lookup_path (p : list string) (n : node) : option node :=
  match p with
  | [] => Some n
  | c :: p' =>
      match n with
      | Dir es =>
          match entry_get c es with
          | Some child => lookup_path p' child
          | None => None
          end
      | File _ => None
      end
  end.

(** The components of a path text: the pieces between slashes, empty pieces
    dropped. *)
Fixpoint split_path_from (cur : string) (s : string) : list string :=
  match s with
  | EmptyString => match cur with EmptyString => [] | _ => [cur] end
  | String c rest =>
      if Ascii.eqb c slash
      then match cur with
           | EmptyString => split_path_from EmptyString rest
           | _ => cur :: split_path_from EmptyString rest
           end
      else split_path_from (cur +:+ String c EmptyString) rest
  end.

Definition split_path (path : string) : list string := split_path_from EmptyString path.

(** A path without its last component, and that component. *)
Definition parent_and_name (path : string) : option (list string * string) :=
  match rev (split_path path) with
  | [] => None
  | name :: rparent => Some (rev rparent, name)
  end.

Fixpoint has_slash (s : string) : bool :=
  match s with
  | EmptyString => false
  | String c rest => Ascii.eqb c slash || has_slash rest
  end.

(** What a directory entry can be called. *)
Definition valid_name (name : string) : Prop :=
  name <> EmptyString /\ has_slash name = false.

Definition is_file (n : node) : Prop :=
  match n with File _ => True | Dir _ => False end.

(** [posixpath.dirname]: cut after the last slash, then strip the slashes the
    head ends with unless it consists of slashes only. *)
Fixpoint drop_while (f : ascii -> bool) (l : list ascii) : list ascii :=
  match l with
  | [] => []
  | c :: rest => if f c then drop_while f rest else l
  end.

Definition os_path_dirname (p : string) : string :=
  let head := rev (drop_while (fun c => negb (Ascii.eqb c slash)) (rev (list_ascii_of_string p))) in
  let stripped := rev (drop_while (fun c => Ascii.eqb c slash) (rev head)) in
  string_of_list_ascii (match stripped with [] => head | _ => stripped end).

(** [here/c], with no slash after an empty [here]. *)
Definition path_join (here c : string) : string :=
  match here with
  | EmptyString => c
  | _ => here +:+ "/" +:+ c
  end.

(** [os.makedirs(path, exist_ok=True)] along the components [p] below the
    node at [here]. The directories that are missing are made from the top
    down. A regular file in the way fails the [mkdir] of the component after
    it, with [NotADirectoryError] for the path of that component; a regular
    file at the path itself fails the last [mkdir] with [FileExistsError]. *)
Fixpoint fs_makedirs (here : string) (p : list string) (n : node) : outcome node :=
  match n with
  | File _ =>
      match p with
      | [] => Raise (OSError "FileExistsError" here)
      | c :: _ => Raise (OSError "NotADirectoryError" (path_join here c))
      end
  | Dir es =>
      match p with
      | [] => Return n
      | c :: p' =>
          match fs_makedirs (path_join here c) p' (default (Dir []) (entry_get c es)) with
          | Return child => Return (Dir (entry_set c child es))
          | Raise e => Raise e
          | Pending => Pending
          end
      end
  end.

(** Walk down to the directory at [p] and change its entries with [f]. *)
Fixpoint fs_in_dir (path : string) (p : list string)
    (f : list (string * node) -> outcome (list (string * node))) (n : node) : outcome node :=
  match n with
  | File _ => Raise (OSError "NotADirectoryError" path)
  | Dir es =>
      match p with
      | [] =>
          match f es with
          | Return es' => Return (Dir es')
          | Raise e => Raise e
          | Pending => Pending
          end
      | c :: p' =>
          match entry_get c es with
          | None => Raise (OSError "FileNotFoundError" path)
          | Some child =>
              match fs_in_dir path p' f child with
              | Return child' => Return (Dir (entry_set c child' es))
              | Raise e => Raise e
              | Pending => Pending
              end
          end
      end
  end.

(** [os.listdir(path)]. *)
Definition fs_listdir (path : string) (n : node) : outcome (list string) :=
  match lookup_path (split_path path) n with
  | Some (Dir es) => Return (map fst es)
  | Some (File _) => Raise (OSError "NotADirectoryError" path)
  | None => Raise (OSError "FileNotFoundError" path)
  end.

(** [os.remove(path)]: unlinks a file, and refuses a directory. *)
Definition unlink (path name : string) (es : list (string * node))
  : outcome (list (string * node)) :=
  match entry_get name es with
  | Some (File _) => Return (entry_del name es)
  | Some (Dir _) => Raise (OSError "IsADirectoryError" path)
  | None => Raise (OSError "FileNotFoundError" path)
  end.

Definition fs_remove (path : string) (n : node) : outcome node :=
  match parent_and_name path with
  | Some (parent, name) => fs_in_dir path parent (unlink path name) n
  | None => Raise (OSError "IsADirectoryError" path)
  end.

(** [open(path, "a")]: creates the file when there is none. *)
Definition create (path name : string) (es : list (string * node))
  : outcome (list (string * node)) :=
  match entry_get name es with
  | Some (File _) => Return es
  | Some (Dir _) => Raise (OSError "IsADirectoryError" path)
  | None => Return (entry_set name (File EmptyString) es)
  end.

Definition fs_open_append (path : string) (n : node) : outcome node :=
  match parent_and_name path with
  | Some (parent, name) => fs_in_dir path parent (create path name) n
  | None => Raise (OSError "IsADirectoryError" path)
  end.

(** * The runtime the module acts on *)

(** The generated vehicle model: a tree of data points, of which the
    application uses [Vehicle.Speed]. *)
Record DataPoint : Type := { get_path : string }.
Record Vehicle : Type := { Speed : DataPoint }.
Definition vehicle : Vehicle := {| Speed := {| get_path := "Vehicle.Speed" |} |}.

(** [DataPointReply]: the values of the subscribed data points of one
    notification, by path. *)
Definition DataPointReply : Type := gmap string pyval.

Inductive level : Type := DEBUG | INFO.

Record LogRecord : Type :=
  { rec_name : string; rec_level : level; rec_message : string }.

Inductive callback : Type := cb_on_speed_change | cb_on_crashed_change.

Module App.
(** The instance attributes of a [SampleApp] object: [__init__] sets
    [self.Vehicle] and nothing else. *)
Record SampleApp : Type := { Vehicle : Vehicle }.
End App.
Abbreviation SampleApp := App.SampleApp.

Record Runtime : Type :=
  { self : SampleApp;                       (* the app object *)
    mqtt : list (string * string);          (* what publish_event has sent: topic, payload *)
    speed_log : list string;                (* lines written through speedLogHandler *)
    console : list LogRecord;               (* records that reached the root handler *)
    subscriptions : list (string * callback);
    broker : gmap string pyval;             (* the broker's current signal values *)
    asctime : string;                       (* the clock, as the formatter prints it *)
    entropy : nat -> float;                 (* the generator's sequence of draws *)
    drawn : nat;                            (* how many draws were taken *)
    fs : node;                              (* the files below the working directory *)
    log_file : nat -> string -> node -> node }.
                                            (* what speedLogHandler does to the files when
                                               it writes its n-th line: it appends the line,
                                               after a roll-over when one is due *)

Definition set_self (a : SampleApp) (r : Runtime) : Runtime :=
  {| self := a; mqtt := mqtt r; speed_log := speed_log r; console := console r;
     subscriptions := subscriptions r; broker := broker r; asctime := asctime r;
     entropy := entropy r; drawn := drawn r; fs := fs r;
     log_file := log_file r |}.
Definition set_mqtt (m : list (string * string)) (r : Runtime) : Runtime :=
  {| self := self r; mqtt := m; speed_log := speed_log r; console := console r;
     subscriptions := subscriptions r; broker := broker r; asctime := asctime r;
     entropy := entropy r; drawn := drawn r; fs := fs r;
     log_file := log_file r |}.
Definition set_speed_log (l : list string) (r : Runtime) : Runtime :=
  {| self := self r; mqtt := mqtt r; speed_log := l; console := console r;
     subscriptions := subscriptions r; broker := broker r; asctime := asctime r;
     entropy := entropy r; drawn := drawn r; fs := fs r;
     log_file := log_file r |}.
Definition set_console (c : list LogRecord) (r : Runtime) : Runtime :=
  {| self := self r; mqtt := mqtt r; speed_log := speed_log r; console := c;
     subscriptions := subscriptions r; broker := broker r; asctime := asctime r;
     entropy := entropy r; drawn := drawn r; fs := fs r;
     log_file := log_file r |}.
Definition set_subscriptions (s : list (string * callback)) (r : Runtime) : Runtime :=
  {| self := self r; mqtt := mqtt r; speed_log := speed_log r; console := console r;
     subscriptions := s; broker := broker r; asctime := asctime r;
     entropy := entropy r; drawn := drawn r; fs := fs r;
     log_file := log_file r |}.
Definition set_drawn (n : nat) (r : Runtime) : Runtime :=
  {| self := self r; mqtt := mqtt r; speed_log := speed_log r; console := console r;
     subscriptions := subscriptions r; broker := broker r; asctime := asctime r;
     entropy := entropy r; drawn := n; fs := fs r;
     log_file := log_file r |}.
Definition set_fs (n : node) (r : Runtime) : Runtime :=
  {| self := self r; mqtt := mqtt r; speed_log := speed_log r; console := console r;
     subscriptions := subscriptions r; broker := broker r; asctime := asctime r;
     entropy := entropy r; drawn := drawn r; fs := n;
     log_file := log_file r |}.

(** Effects: a computation runs on a runtime; what it did before raising (or
    before it got stuck) stays done. *)
Definition M (A : Type) : Type := Runtime -> outcome A * Runtime.

Definition ret {A} (a : A) : M A := fun r => (Return a, r).
Definition raise {A} (e : exn) : M A := fun r => (Raise e, r).
Definition pending {A} : M A := fun r => (Pending, r).
Definition bind {A B} (m : M A) (k : A -> M B) : M B :=
  fun r => match m r with
           | (Return a, r') => k a r'
           | (Raise e, r') => (Raise e, r')
           | (Pending, r') => (Pending, r')
           end.
Definition gets {A} (f : Runtime -> A) : M A := fun r => (Return (f r), r).
Definition modify (f : Runtime -> Runtime) : M unit := fun r => (Return tt, f r).

Declare Scope py_scope.
Delimit Scope py_scope with py.
Bind Scope py_scope with M.
Notation "x <- m ; k" := (bind m (fun x => k))
  (at level 20, m at level 100, k at level 200, only parsing) : py_scope.
Notation "m ;; k" := (bind m (fun _ => k))
  (at level 100, k at level 200, only parsing, right associativity) : py_scope.
Local Open Scope py_scope.

(** [for x in l: body(x)]. *)
Fixpoint for_each {A} (l : list A) (body : A -> M unit) : M unit :=
  match l with
  | [] => ret tt
  | x :: rest => body x ;; for_each rest body
  end.

(** ** The collaborators *)

(** [random.random()]: the next draw of the generator. *)
Definition random_random : M float :=
  n <- gets drawn;
  f <- gets entropy;
  modify (set_drawn (S n)) ;;
  ret (f n).

(** [VehicleApp.publish_event(topic, payload)]. *)
Definition publish_event (topic payload : string) : M unit :=
  sent <- gets mqtt;
  modify (set_mqtt (sent ++ [(topic, payload)])).

(** [data.get(datapoint).value] on a notification. *)
Definition DataPointReply_get (data : DataPointReply) (dp : DataPoint) : M pyval :=
  match data !! get_path dp with
  | Some v => ret v
  | None => raise (KeyError (get_path dp))
  end.

(** [(await datapoint.get()).value]: a point-in-time read from the broker,
    which raises when the broker has no value to give. *)
Definition DataPoint_get (dp : DataPoint) : M pyval :=
  b <- gets broker;
  match b !! get_path dp with
  | Some v => ret v
  | None => raise (BrokerError (get_path dp))
  end.

(** [await datapoint.subscribe(cb)]. *)
Definition DataPoint_subscribe (dp : DataPoint) (cb : callback) : M unit :=
  subs <- gets subscriptions;
  modify (set_subscriptions (subs ++ [(get_path dp, cb)])).

(** ** The [os] calls, on the runtime's file system *)

Definition on_fs (f : node -> outcome node) : M unit :=
  fun r => match f (fs r) with
           | Return n => (Return tt, set_fs n r)
           | Raise e => (Raise e, r)
           | Pending => (Pending, r)
           end.

Definition os_makedirs (path : string) : M unit :=
  on_fs (fs_makedirs EmptyString (split_path path)).

Definition os_listdir (path : string) : M (list string) :=
  fun r => (fs_listdir path (fs r), r).

Definition os_remove (path : string) : M unit := on_fs (fs_remove path).

(** [TimedRotatingFileHandler(filename=..., ...)]: the constructor opens the
    file for appending. *)
Definition TimedRotatingFileHandler__init__ (filename : string) : M unit :=
  on_fs (fs_open_append filename).

(** ** Logging, as the module configures it

    The root logger is at level DEBUG with the console handler of
    [basicConfig]. [logger] is [logging.getLogger(__name__)]: it has no handler
    and no level of its own, so every record goes to the root handler.
    [loggerCrashDiagnosticSpeed] is the logger ["speed"] at level INFO with
    [speedLogHandler] attached; its records also propagate to the root
    handler. Of the rotating file handler the runtime keeps the sequence of
    lines it was given; what each write does to the files (append, roll over)
    is the logging library's and comes with the runtime as [log_file]. *)

Definition SPEED_LOG_PATH : string := "logs/vehicle/crash_diagnostic/".
Definition SPEED_LOGGER_NAME : string := "speed".

(** [SPEED_LOG_FORMAT = "%(asctime)s [%(name)s] - %(message)s"]. *)
Definition SPEED_LOG_FORMAT (time : string) (r : LogRecord) : string :=
  time +:+ " [" +:+ rec_name r +:+ "] - " +:+ rec_message r.

Definition root_handler_emit (r : LogRecord) : M unit :=
  c <- gets console;
  modify (set_console (c ++ [r])).

Definition speedLogHandler_emit (r : LogRecord) : M unit :=
  now <- gets asctime;
  l <- gets speed_log;
  write <- gets log_file;
  files <- gets fs;
  modify (set_fs (write (length l) (SPEED_LOG_FORMAT now r) files)) ;;
  modify (set_speed_log (l ++ [SPEED_LOG_FORMAT now r])).

Definition loggerCrashDiagnosticSpeed_info (message : string) : M unit :=
  let r := {| rec_name := SPEED_LOGGER_NAME; rec_level := INFO; rec_message := message |} in
  speedLogHandler_emit r ;;
  root_handler_emit r.

Definition logger_debug (message : string) : M unit :=
  root_handler_emit {| rec_name := "__main__"; rec_level := DEBUG; rec_message := message |}.

Definition logger_info (message : string) : M unit :=
  root_handler_emit {| rec_name := "__main__"; rec_level := INFO; rec_message := message |}.

(** * The module *)

Definition GET_SPEED_REQUEST_TOPIC : string := "sampleapp/getSpeed".
Definition GET_SPEED_RESPONSE_TOPIC : string := "sampleapp/getSpeed/response".
Definition DATABROKER_SUBSCRIPTION_TOPIC_SPEED : string := "sampleapp/currentSpeed".
Definition DATABROKER_SUBSCRIPTION_TOPIC_CRASHED : string := "sampleapp/crashed".

(** The statements that configure the crash diagnostic logger, as far as
    they touch the file system: make the directory, remove what it lists,
    open [speed.log]. *)
Definition log_dir_setup : M unit :=
  os_makedirs (os_path_dirname SPEED_LOG_PATH) ;;
  files <- os_listdir SPEED_LOG_PATH;
  for_each files (fun file => os_remove (SPEED_LOG_PATH +:+ file)) ;;
  TimedRotatingFileHandler__init__ (SPEED_LOG_PATH +:+ SPEED_LOGGER_NAME +:+ ".log").

(** [SampleApp.__init__(self, vehicle_client)]. *)
Definition SampleApp__init__ (vehicle_client : Vehicle) : M unit :=
  modify (set_self {| App.Vehicle := vehicle_client |}).

Definition random_vehicle_crash : M bool :=
  draw <- random_random;
  let crashed := (draw <? 0.01)%float in
  if crashed then ret true else ret false.

Definition on_start : M unit :=
  app <- gets self;
  DataPoint_subscribe (Speed (App.Vehicle app)) cb_on_speed_change ;;
  DataPoint_subscribe (Speed (App.Vehicle app)) cb_on_crashed_change.

Inductive event : Type :=
| SignalChange (data : DataPointReply)
| TopicMessage (topic payload : string).

Inductive run_ending : Type :=
| RunReturns
| RunRaises (e : exn)
| RunForever.

(** The names the module binds at top level before [main] is run, with those
    every module has. *)
Definition module_globals : list string :=
  [ "__name__"; "__doc__"; "__package__"; "__loader__"; "__spec__"; "__file__";
    "__builtins__"; "__cached__"; "__annotations__";
    "asyncio"; "json"; "logging"; "TimedRotatingFileHandler"; "signal"; "random"; "os";
    "Vehicle"; "vehicle"; "get_opentelemetry_log_factory"; "get_opentelemetry_log_format";
    "DataPointReply"; "VehicleApp"; "subscribe_topic";
    "logger"; "GET_SPEED_REQUEST_TOPIC"; "GET_SPEED_RESPONSE_TOPIC";
    "DATABROKER_SUBSCRIPTION_TOPIC_SPEED"; "DATABROKER_SUBSCRIPTION_TOPIC_CRASHED";
    "SPEED_LOG_PATH"; "SPEED_LOGGER_NAME"; "SPEED_LOG_FORMAT"; "file";
    "speedLogHandler"; "loggerCrashDiagnosticSpeed";
    "SampleApp"; "main"; "LOOP" ].

(** The interpreter's builtins. *)
Definition builtins : list string :=
  [ "abs"; "aiter"; "all"; "anext"; "any"; "ascii"; "bin"; "bool"; "breakpoint";
    "bytearray"; "bytes"; "callable"; "chr"; "classmethod"; "compile"; "complex";
    "copyright"; "credits"; "delattr"; "dict"; "dir"; "divmod"; "enumerate"; "eval";
    "exec"; "exit"; "filter"; "float"; "format"; "frozenset"; "getattr"; "globals";
    "hasattr"; "hash"; "help"; "hex"; "id"; "input"; "int"; "isinstance"; "issubclass";
    "iter"; "len"; "license"; "list"; "locals"; "map"; "max"; "memoryview"; "min";
    "next"; "object"; "oct"; "open"; "ord"; "pow"; "print"; "property"; "quit"; "range";
    "repr"; "reversed"; "round"; "set"; "setattr"; "slice"; "sorted"; "staticmethod";
    "str"; "sum"; "super"; "tuple"; "type"; "vars"; "zip";
    "__import__"; "__build_class__"; "__debug__";
    "True"; "False"; "None"; "Ellipsis"; "NotImplemented";
    "ArithmeticError"; "AssertionError"; "AttributeError"; "BaseException";
    "BaseExceptionGroup"; "BlockingIOError"; "BrokenPipeError"; "BufferError";
    "BytesWarning"; "ChildProcessError"; "ConnectionAbortedError"; "ConnectionError";
    "ConnectionRefusedError"; "ConnectionResetError"; "DeprecationWarning"; "EOFError";
    "EncodingWarning"; "EnvironmentError"; "Exception"; "ExceptionGroup";
    "FileExistsError"; "FileNotFoundError"; "FloatingPointError"; "FutureWarning";
    "GeneratorExit"; "IOError"; "ImportError"; "ImportWarning"; "IndentationError";
    "IndexError"; "InterruptedError"; "IsADirectoryError"; "KeyError";
    "KeyboardInterrupt"; "LookupError"; "MemoryError"; "ModuleNotFoundError";
    "NameError"; "NotADirectoryError"; "NotImplementedError"; "OSError";
    "OverflowError"; "PendingDeprecationWarning"; "PermissionError";
    "ProcessLookupError"; "RecursionError"; "ReferenceError"; "ResourceWarning";
    "RuntimeError"; "RuntimeWarning"; "StopAsyncIteration"; "StopIteration";
    "SyntaxError"; "SyntaxWarning"; "SystemError"; "SystemExit"; "TabError";
    "TimeoutError"; "TypeError"; "UnboundLocalError"; "UnicodeDecodeError";
    "UnicodeEncodeError"; "UnicodeError"; "UnicodeTranslateError"; "UnicodeWarning";
    "UserWarning"; "ValueError"; "Warning"; "ZeroDivisionError" ].

(** Loading a name that is not a local of the function: module globals
    first, then builtins, else [NameError]. *)
Definition load_global (name : string) : M unit :=
  if bool_decide (name ∈ module_globals) then ret tt
  else if bool_decide (name ∈ builtins) then ret tt
  else raise (NameError name).

(** Each callback runs as a task of its own: when it raises, that task ends
    and the loop goes on. *)
Definition as_task (m : M unit) : M unit :=
  fun r => (Return tt, snd (m r)).

Section Handlers.

Variable float_repr : float -> string.

Definition on_speed_change (data : DataPointReply) : M unit :=
  app <- gets self;
  vehicle_speed <- DataPointReply_get data (Speed (App.Vehicle app));
  loggerCrashDiagnosticSpeed_info ("vehicle_speed " +:+ py_str float_repr vehicle_speed) ;;
  publish_event
    DATABROKER_SUBSCRIPTION_TOPIC_SPEED
    (json_dumps float_repr (PyDict [("speed", PyVal vehicle_speed)])).

Definition on_crashed_change (data : DataPointReply) : M unit :=
  vehicle_crashed <- random_vehicle_crash;
  if vehicle_crashed then
    publish_event
      DATABROKER_SUBSCRIPTION_TOPIC_CRASHED
      (json_dumps float_repr (PyDict [("crashed ", PyVal (PyBool vehicle_crashed))]))
  else ret tt.

(** The response document of the request handler. *)
Definition get_speed_response (vehicle_speed : pyval) : pyobj :=
  PyDict
    [("result",
      PyDict
        [("status", PyVal (PyInt 0));
         ("message", PyVal (PyStr ("Current Speed = " +:+ py_str float_repr vehicle_speed)))])].

Definition on_get_speed_request_received (data : string) : M unit :=
  logger_debug
    ("PubSub event for the Topic: " +:+ GET_SPEED_REQUEST_TOPIC
       +:+ " -> is received with the data: " +:+ data) ;;
  app <- gets self;
  vehicle_speed <- DataPoint_get (Speed (App.Vehicle app));
  publish_event
    GET_SPEED_RESPONSE_TOPIC
    (json_dumps float_repr (get_speed_response vehicle_speed)).

(** ** The SDK's dispatch, [main] and the module body *)

Definition invoke (cb : callback) (data : DataPointReply) : M unit :=
  match cb with
  | cb_on_speed_change => on_speed_change data
  | cb_on_crashed_change => on_crashed_change data
  end.

(** The callbacks of one notification are run here one after the other in
    the order of subscription. The SDK promises no order between them: the
    theorems below say nothing that depends on this one, and only the sample
    run shows it. *)
Fixpoint notify (subs : list (string * callback)) (data : DataPointReply) : M unit :=
  match subs with
  | [] => ret tt
  | (p, cb) :: rest =>
      (if bool_decide (is_Some (data !! p)) then as_task (invoke cb data) else ret tt) ;;
      notify rest data
  end.

Definition dispatch (e : event) : M unit :=
  match e with
  | SignalChange data =>
      subs <- gets subscriptions;
      notify subs data
  | TopicMessage topic payload =>
      if String.eqb topic GET_SPEED_REQUEST_TOPIC
      then as_task (on_get_speed_request_received payload)
      else ret tt
  end.

(** [VehicleApp.run()]: connect, call [on_start], serve the events that
    arrive, and end the way the environment makes it end. *)
Definition VehicleApp_run (events : list event) (ending : run_ending) : M unit :=
  on_start ;;
  for_each events dispatch ;;
  match ending with
  | RunReturns => ret tt
  | RunRaises e => raise e
  | RunForever => pending
  end.

(** [main]: [vehicle_app] is its only local; every other name it uses is
    looked up when the statement runs. *)
Definition main (events : list event) (ending : run_ending) : M unit :=
  load_global "logger" ;;
  logger_info "Starting SampleApp..." ;;
  load_global "SampleApp" ;;
  load_global "vehicle" ;;
  SampleApp__init__ vehicle ;;              (* vehicle_app = SampleApp(vehicle) *)
  VehicleApp_run events ending ;;           (* await vehicle_app.run() *)
  load_global "app" ;;                      (* await app.run() *)
  ret tt.

(** The module, top to bottom: the log set-up runs at import time, the event
    loop (and with it every handler) only in the last statements. *)
Definition module_body (events : list event) (ending : run_ending) : M unit :=
  log_dir_setup ;;
  main events ending.                       (* LOOP.run_until_complete(main()) *)

End Handlers.

(** * Sample states *)

(** The components of the log directory's path. *)
Definition LOG_DIR : list string := ["logs"; "vehicle"; "crash_diagnostic"].

(** A handler that is never due to roll over: every line goes to the end of
    [speed.log]. *)
Definition append_speed_log (n : nat) (line : string) (files : node) : node :=
  let add es :=
    let old := match entry_get "speed.log" es with Some (File text) => text | _ => EmptyString end in
    Return (entry_set "speed.log" (File (old +:+ line +:+ String "010" EmptyString)) es) in
  match fs_in_dir "logs/vehicle/crash_diagnostic/speed.log" LOG_DIR add files with
  | Return files' => files'
  | _ => files
  end.

(** The log directory of an earlier run: the current file and two rotated
    ones. *)
Definition old_logs : list (string * node) :=
  [ ("speed.log", File "2024-05-17 10:14:58,101 [speed] - vehicle_speed 12.5");
    ("speed.log.10-14-40", File "2024-05-17 10:14:41,007 [speed] - vehicle_speed 11.0");
    ("speed.log.10-14-50", File "2024-05-17 10:14:52,313 [speed] - vehicle_speed 12.0") ].

Definition fs0 : node :=
  Dir [ ("app", Dir [("src", Dir [("main.py", File "import asyncio")])]);
        ("logs", Dir [("vehicle", Dir [("crash_diagnostic", Dir old_logs)])]) ].

(** A runtime to run the module on: the app built over the generated vehicle
    model, nothing sent or logged yet, a broker that knows the speed. *)
Definition runtime0 : Runtime :=
  {| self := {| App.Vehicle := vehicle |};
     mqtt := [];
     speed_log := [];
     console := [];
     subscriptions := [];
     broker := {[ "Vehicle.Speed" := PyInt 42 ]};
     asctime := "2024-05-17 10:15:00,000";
     entropy := fun n => match n with O => 0.005%float | _ => 0.5%float end;
     drawn := 0;
     fs := fs0;
     log_file := append_speed_log |}.

(** What [main] has done by the time it awaits [vehicle_app.run()]. *)
Definition started (r : Runtime) : Runtime :=
  set_self {| App.Vehicle := vehicle |}
    (set_console
       (console r ++
          [{| rec_name := "__main__"; rec_level := INFO; rec_message := "Starting SampleApp..." |}])
       r).

(** The removal loop of the log set-up, on the entries of the log directory
    alone. *)
Fixpoint unlink_each (names : list string) (es : list (string * node))
  : outcome (list (string * node)) :=
  match names with
  | [] => Return es
  | name :: rest =>
      match unlink (SPEED_LOG_PATH +:+ name) name es with
      | Return es' => unlink_each rest es'
      | Raise e => Raise e
      | Pending => Pending
      end
  end.

(** The first entry of a listing that is a directory. *)
Fixpoint first_dir (es : list (string * node)) : option string :=
  match es with
  | [] => None
  | (_, File _) :: rest => first_dir rest
  | (name, Dir _) :: _ => Some name
  end.

(** Everything of a runtime but its file system. *)
Definition outside_fs (r : Runtime) :=
  (self r, mqtt r, speed_log r, console r, subscriptions r, broker r, asctime r,
   entropy r, drawn r).

(** * Further definitions, for the properties of whole runs *)

(** A runtime like [runtime0] with the broker's values given. *)
Definition runtime_at (b : gmap string pyval) : Runtime :=
  {| self := {| App.Vehicle := vehicle |};
     mqtt := [];
     speed_log := [];
     console := [];
     subscriptions := [];
     broker := b;
     asctime := "2024-05-17 10:15:00,000";
     entropy := fun n => match n with 1%nat => 0.005%float | _ => 0.5%float end;
     drawn := 0;
     fs := fs0;
     log_file := append_speed_log |}.

(** A log directory into which somebody has put a subdirectory. *)
Definition runtime_archive : Runtime :=
  set_fs
    (Dir [("logs", Dir [("vehicle", Dir [("crash_diagnostic",
            Dir [("speed.log", File "old line");
                 ("archive", Dir [("2023", File "kept")]);
                 ("speed.log.10-14-50", File "older line")])])])])
    runtime0.

(** A working directory with [logs] in it and no log directory below. *)
Definition runtime_fresh : Runtime :=
  set_fs (Dir [("logs", Dir [("other", File "x")])]) runtime0.

(** What one speed notification adds: the message, the log record and the
    line of the diagnostic log. *)
Definition speed_message (float_repr : float -> string) (v : pyval) : string * string :=
  ("sampleapp/currentSpeed", "{" +:+ quoted "speed" +:+ ": " +:+ json_scalar float_repr v +:+ "}").

Definition speed_record (float_repr : float -> string) (v : pyval) : LogRecord :=
  {| rec_name := "speed"; rec_level := INFO;
     rec_message := "vehicle_speed " +:+ py_str float_repr v |}.

Definition speed_line (float_repr : float -> string) (now : string) (v : pyval) : string :=
  now +:+ " [speed] - vehicle_speed " +:+ py_str float_repr v.

(** The one message of the crash simulator. *)
Definition crash_message : string * string :=
  ("sampleapp/crashed", "{" +:+ quoted "crashed " +:+ ": true}").

(** The debug record of the request handler. *)
Definition request_record (data : string) : LogRecord :=
  {| rec_name := "__main__"; rec_level := DEBUG;
     rec_message :=
       "PubSub event for the Topic: sampleapp/getSpeed -> is received with the data: " +:+ data |}.

(** How many of the [n] draws from position [start] on fall below the
    threshold. *)
Fixpoint crash_count (f : nat -> float) (start n : nat) : nat :=
  match n with
  | O => O
  | S n' => ((if (f start <? 0.01)%float then 1 else 0) + crash_count f (S start) n')%nat
  end.

(** The characters [encode_basestring_ascii] leaves as they are. *)
Definition plain_char (c : ascii) : bool :=
  negb (Ascii.eqb c backslash) && negb (Ascii.eqb c dquote)
  && (32 <=? N_of_ascii c)%N && (N_of_ascii c <=? 126)%N.

Fixpoint plain (s : string) : bool :=
  match s with
  | EmptyString => true
  | String c rest => plain_char c && plain rest
  end.

(** Two paths that part ways at some component: neither leads into the
    other. *)
Inductive diverge : list string -> list string -> Prop :=
| diverge_here (c c' : string) (p q : list string) :
    c <> c' -> diverge (c :: p) (c' :: q)
| diverge_later (c : string) (p q : list string) :
    diverge p q -> diverge (c :: p) (c :: q).

(** The parts of a runtime the crash simulator, the request handler and the
    signal listener have no business with. (The signal listener writes the
    diagnostic log, which is a file: the file system is not among its
    parts.) *)
Definition beside_crash (r : Runtime) :=
  (self r, speed_log r, console r, subscriptions r, broker r, asctime r, entropy r, fs r).

Definition beside_request (r : Runtime) :=
  (self r, speed_log r, subscriptions r, broker r, asctime r, entropy r, drawn r, fs r).

Definition beside_speed (r : Runtime) :=
  (self r, subscriptions r, broker r, asctime r, entropy r, drawn r).

(** What the removal loop leaves of the entries [es] when it stops, at its
    end or at the entry it fails on. *)
Fixpoint unlink_each_left (names : list string) (es : list (string * node))
  : list (string * node) :=
  match names with
  | [] => es
  | name :: rest =>
      match unlink (SPEED_LOG_PATH +:+ name) name es with
      | Return es' => unlink_each_left rest es'
      | _ => es
      end
  end.

(** The file system of one runtime agrees with that of another on every
    path that does not lead into or out of the log directory. *)
Definition same_outside_log_dir (n n' : node) : Prop :=
  forall q, diverge LOG_DIR q -> lookup_path q n' = lookup_path q n.

(** * Properties *)

Lemma append_assoc (a b c : string) : (a +:+ b) +:+ c = a +:+ (b +:+ c).
Proof.
  induction a as [|x a IH]; [reflexivity|].
  change (String x ((a +:+ b) +:+ c) = String x (a +:+ (b +:+ c))).
  now rewrite IH.
Qed.

Lemma append_nil_r (a : string) : a +:+ EmptyString = a.
Proof.
  induction a as [|x a IH]; [reflexivity|].
  change (String x (a +:+ EmptyString) = String x a).
  now rewrite IH.
Qed.

Lemma bind_Return {A B} (m : M A) (k : A -> M B) (r r' : Runtime) (a : A) :
  m r = (Return a, r') -> bind m k r = k a r'.
Proof. intros H. unfold bind. now rewrite H. Qed.

Lemma bind_Raise {A B} (m : M A) (k : A -> M B) (r r' : Runtime) (e : exn) :
  m r = (Raise e, r') -> bind m k r = (Raise e, r').
Proof. intros H. unfold bind. now rewrite H. Qed.

(** The decimal numeral of an integer reads back as that integer. *)
Lemma int_repr_read_back (z : Z) :
  option_map Z.of_int (NilZero.int_of_string (int_repr z)) = Some z.
Proof.
  unfold int_repr.
  rewrite NilZero.isi.
  - cbn. now rewrite DecimalZ.of_to.
  - destruct z; cbn; try discriminate.
    intros [= H]. now apply DecimalPos.Unsigned.to_uint_nonnil in H.
  - destruct z; cbn; try discriminate.
    intros [= H]. now apply DecimalPos.Unsigned.to_uint_nonnil in H.
Qed.

Lemma int_repr_inj (z1 z2 : Z) : int_repr z1 = int_repr z2 -> z1 = z2.
Proof.
  intros H. pose proof (int_repr_read_back z1) as H1. rewrite H, int_repr_read_back in H1.
  congruence.
Qed.

Section HandlerFacts.

Variable float_repr : float -> string.

(** ** The signal listener *)

Lemma on_speed_change_run (data : DataPointReply) (v : pyval) (r : Runtime) :
  data !! get_path (Speed (App.Vehicle (self r))) = Some v ->
  on_speed_change float_repr data r
  = (Return tt,
     set_mqtt (mqtt r ++ [speed_message float_repr v])
       (set_console (console r ++ [speed_record float_repr v])
          (set_speed_log (speed_log r ++ [speed_line float_repr (asctime r) v])
             (set_fs (log_file r (length (speed_log r))
                        (speed_line float_repr (asctime r) v) (fs r))
                r)))).
Proof.
  intros Hv. unfold on_speed_change, bind, gets, DataPointReply_get. cbn.
  rewrite Hv. reflexivity.
Qed.

(** C1. When a notification carries the speed value [v], [on_speed_change]
    returns, and in the runtime it leaves the published messages are those
    there were and one more, to [sampleapp/currentSpeed], whose text is the
    document [{"speed": v}]; the diagnostic log has its old lines and one
    more, which ends with [v] as [str] prints it. For an integer the number
    in the payload is its decimal numeral, which reads back as the integer;
    for a float it is the interpreter's [repr] of that very float (or the
    token [NaN], [Infinity], [-Infinity] where [json] has one). *)
Theorem on_speed_change_echo (data : DataPointReply) (v : pyval) (r : Runtime) :
  data !! get_path (Speed (App.Vehicle (self r))) = Some v ->
  let run := on_speed_change float_repr data r in
  fst run = Return tt
  /\ mqtt (snd run)
     = mqtt r ++ [("sampleapp/currentSpeed", json_dumps float_repr (PyDict [("speed", PyVal v)]))]
  /\ py_getitem (PyDict [("speed", PyVal v)]) "speed" = Some (PyVal v)
  /\ speed_log (snd run)
     = speed_log r ++ [asctime r +:+ " [speed] - vehicle_speed " +:+ py_str float_repr v]
  /\ (forall z, v = PyInt z ->
        mqtt (snd run)
        = mqtt r ++ [("sampleapp/currentSpeed",
                      "{" +:+ quoted "speed" +:+ ": " +:+ int_repr z +:+ "}")]
        /\ speed_log (snd run)
           = speed_log r ++ [asctime r +:+ " [speed] - vehicle_speed " +:+ int_repr z]
        /\ option_map Z.of_int (NilZero.int_of_string (int_repr z)) = Some z)
  /\ (forall f, v = PyFloat f ->
        mqtt (snd run)
        = mqtt r ++ [("sampleapp/currentSpeed",
                      "{" +:+ quoted "speed" +:+ ": "
                        +:+ (if negb (f =? f)%float then "NaN"
                             else if (f =? infinity)%float then "Infinity"
                             else if (f =? neg_infinity)%float then "-Infinity"
                             else float_repr f)
                        +:+ "}")]
        /\ speed_log (snd run)
           = speed_log r ++ [asctime r +:+ " [speed] - vehicle_speed " +:+ float_repr f]).
Proof.
  intros Hv. cbv zeta. rewrite (on_speed_change_run data v r Hv).
  cbn [fst snd mqtt speed_log set_mqtt set_console set_speed_log set_fs].
  split; [reflexivity|]. split; [reflexivity|]. split; [reflexivity|].
  split; [reflexivity|]. split.
  - intros z ->. split; [reflexivity|]. split; [reflexivity|]. apply int_repr_read_back.
  - intros f ->. split; reflexivity.
Qed.

(** ** The crash simulator *)

Lemma random_vehicle_crash_run (r : Runtime) :
  random_vehicle_crash r
  = (Return (entropy r (drawn r) <? 0.01)%float, set_drawn (S (drawn r)) r).
Proof.
  unfold random_vehicle_crash, random_random, bind, gets, modify, ret. cbn.
  destruct (entropy r (drawn r) <? 0.01)%float; reflexivity.
Qed.

Lemma on_crashed_change_run (data : DataPointReply) (r : Runtime) :
  on_crashed_change float_repr data r
  = (Return tt,
     if (entropy r (drawn r) <? 0.01)%float
     then set_mqtt (mqtt r ++ [("sampleapp/crashed", "{" +:+ quoted "crashed " +:+ ": true}")])
            (set_drawn (S (drawn r)) r)
     else set_drawn (S (drawn r)) r).
Proof.
  unfold on_crashed_change, bind. rewrite random_vehicle_crash_run.
  destruct (entropy r (drawn r) <? 0.01)%float; reflexivity.
Qed.

(** C3. [on_crashed_change] returns, and the messages it leaves published
    are decided by the crash trial alone: when the trial is true, those
    there were and exactly one more, to [sampleapp/crashed], with the text
    [{"crashed ": true}], whose key ends with a space; when the trial is
    false, those there were and no other. *)
Theorem on_crashed_change_publish (data : DataPointReply) (r : Runtime) (trial : bool) :
  fst (random_vehicle_crash r) = Return trial ->
  let run := on_crashed_change float_repr data r in
  fst run = Return tt
  /\ mqtt (snd run)
     = if trial
       then mqtt r ++ [("sampleapp/crashed", "{" +:+ quoted "crashed " +:+ ": true}")]
       else mqtt r.
Proof.
  rewrite random_vehicle_crash_run. cbn [fst]. intros [= <-]. cbv zeta.
  rewrite on_crashed_change_run. cbn [fst snd].
  destruct (entropy r (drawn r) <? 0.01)%float; split; reflexivity.
Qed.

(** C6. The notification handed to [on_crashed_change] plays no part: on
    the same runtime (so on the same draw) two notifications lead to the
    same outcome and the same runtime, published messages included. *)
Theorem on_crashed_change_ignores_data (data1 data2 : DataPointReply) (r : Runtime) :
  on_crashed_change float_repr data1 r = on_crashed_change float_repr data2 r.
Proof. reflexivity. Qed.

(** ** The request handler *)

Lemma on_get_speed_request_received_ok (data : string) (v : pyval) (r : Runtime) :
  broker r !! get_path (Speed (App.Vehicle (self r))) = Some v ->
  on_get_speed_request_received float_repr data r
  = (Return tt,
     set_mqtt
       (mqtt r ++ [(GET_SPEED_RESPONSE_TOPIC, json_dumps float_repr (get_speed_response float_repr v))])
       (set_console
          (console r ++
             [{| rec_name := "__main__"; rec_level := DEBUG;
                 rec_message :=
                   "PubSub event for the Topic: sampleapp/getSpeed -> is received with the data: "
                     +:+ data |}])
          r)).
Proof.
  intros Hv.
  unfold on_get_speed_request_received, DataPoint_get, bind, gets. cbn.
  rewrite Hv. reflexivity.
Qed.

Lemma on_get_speed_request_received_failed (data : string) (r : Runtime) :
  broker r !! get_path (Speed (App.Vehicle (self r))) = None ->
  fst (on_get_speed_request_received float_repr data r)
  = Raise (BrokerError (get_path (Speed (App.Vehicle (self r)))))
  /\ mqtt (snd (on_get_speed_request_received float_repr data r)) = mqtt r.
Proof.
  intros Hv.
  unfold on_get_speed_request_received, DataPoint_get, bind, gets. cbn.
  rewrite Hv. split; reflexivity.
Qed.

(** C2. Whatever the request carries, when the broker's current speed is
    the integer 42 the handler publishes one response, to
    [sampleapp/getSpeed/response], and the [message] field of its [result]
    is the text [Current Speed = 42]. This is the run the SDK starts for a
    message that arrives on [sampleapp/getSpeed]. *)
Theorem get_speed_response_42 (data : string) (r : Runtime) :
  broker r !! get_path (Speed (App.Vehicle (self r))) = Some (PyInt 42) ->
  let response := get_speed_response float_repr (PyInt 42) in
  let run := on_get_speed_request_received float_repr data r in
  fst run = Return tt
  /\ mqtt (snd run)
     = mqtt r ++
         [("sampleapp/getSpeed/response",
           "{" +:+ quoted "result" +:+ ": {" +:+ quoted "status" +:+ ": 0, "
             +:+ quoted "message" +:+ ": " +:+ quoted "Current Speed = 42" +:+ "}}")]
  /\ py_path response ["result"; "message"] = Some (PyVal (PyStr "Current Speed = 42"))
  /\ dispatch float_repr (TopicMessage "sampleapp/getSpeed" data) r = (Return tt, snd run).
Proof.
  intros Hv. cbv zeta.
  change (dispatch float_repr (TopicMessage "sampleapp/getSpeed" data) r)
    with (Return tt, snd (on_get_speed_request_received float_repr data r)).
  rewrite (on_get_speed_request_received_ok data (PyInt 42) r Hv).
  repeat split; reflexivity.
Qed.

(** C4. Whenever the broker read succeeds, with any value [v], the handler
    publishes one response whose [result] has [status] 0: in the document
    handed to [json.dumps] and in the text that is sent. *)
Theorem get_speed_response_status (data : string) (v : pyval) (r : Runtime) :
  broker r !! get_path (Speed (App.Vehicle (self r))) = Some v ->
  let response := get_speed_response float_repr v in
  let run := on_get_speed_request_received float_repr data r in
  fst run = Return tt
  /\ mqtt (snd run) = mqtt r ++ [("sampleapp/getSpeed/response", json_dumps float_repr response)]
  /\ py_path response ["result"; "status"] = Some (PyVal (PyInt 0))
  /\ json_dumps float_repr response
     = "{" +:+ quoted "result" +:+ ": {" +:+ quoted "status" +:+ ": 0, "
         +:+ quoted "message" +:+ ": "
         +:+ encode_basestring_ascii ("Current Speed = " +:+ py_str float_repr v) +:+ "}}".
Proof.
  intros Hv. cbv zeta.
  rewrite (on_get_speed_request_received_ok data v r Hv).
  repeat split; try reflexivity.
  unfold get_speed_response. cbn. unfold encode_basestring_ascii.
  rewrite !append_assoc. reflexivity.
Qed.

(** C7. The payload of a request plays no part in the answer: on the same
    runtime (so with the same broker value) two requests end the same way
    and leave the same list of published messages, topic and text alike.
    (They do differ in the debug record, which quotes the payload.) *)
Theorem get_speed_response_ignores_payload (data1 data2 : string) (r : Runtime) :
  let run1 := on_get_speed_request_received float_repr data1 r in
  let run2 := on_get_speed_request_received float_repr data2 r in
  fst run1 = fst run2 /\ mqtt (snd run1) = mqtt (snd run2).
Proof.
  cbv zeta.
  destruct (broker r !! get_path (Speed (App.Vehicle (self r)))) as [v|] eqn:Hv.
  - rewrite !(on_get_speed_request_received_ok _ v r Hv). split; reflexivity.
  - destruct (on_get_speed_request_received_failed data1 r Hv) as [-> ->].
    destruct (on_get_speed_request_received_failed data2 r Hv) as [-> ->].
    split; reflexivity.
Qed.

(** ** The app object *)

Lemma on_speed_change_self (data : DataPointReply) (r : Runtime) :
  self (snd (on_speed_change float_repr data r)) = self r.
Proof.
  unfold on_speed_change, bind, gets, DataPointReply_get. cbn.
  destruct (data !! get_path (Speed (App.Vehicle (self r)))); reflexivity.
Qed.

Lemma on_crashed_change_self (data : DataPointReply) (r : Runtime) :
  self (snd (on_crashed_change float_repr data r)) = self r.
Proof.
  rewrite on_crashed_change_run.
  destruct (entropy r (drawn r) <? 0.01)%float; reflexivity.
Qed.

Lemma on_get_speed_request_received_self (data : string) (r : Runtime) :
  self (snd (on_get_speed_request_received float_repr data r)) = self r.
Proof.
  unfold on_get_speed_request_received, DataPoint_get, bind, gets. cbn.
  destruct (broker r !! get_path (Speed (App.Vehicle (self r)))); reflexivity.
Qed.

(** C8. No handler changes the app object: after [on_speed_change],
    [on_crashed_change] or [on_get_speed_request_received], however it ends,
    [self] (that is, [self.Vehicle], its only attribute) is what it was. *)
Theorem handlers_keep_self (r : Runtime) :
  (forall data, self (snd (on_speed_change float_repr data r)) = self r)
  /\ (forall data, self (snd (on_crashed_change float_repr data r)) = self r)
  /\ (forall data, self (snd (on_get_speed_request_received float_repr data r)) = self r).
Proof.
  split; [|split]; intros data.
  - apply on_speed_change_self.
  - apply on_crashed_change_self.
  - apply on_get_speed_request_received_self.
Qed.

(** The same holds for a whole run of events: [__init__] is the only place
    that assigns [self.Vehicle]. *)
Lemma notify_self (subs : list (string * callback)) (data : DataPointReply) (r : Runtime) :
  self (snd (notify float_repr subs data r)) = self r.
Proof.
  revert r. induction subs as [|[p cb] rest IH]; intros r; [reflexivity|].
  cbn [notify]. unfold bind.
  destruct (bool_decide (is_Some (data !! p))); cbn.
  - rewrite IH. destruct cb; [apply on_speed_change_self | apply on_crashed_change_self].
  - apply IH.
Qed.

Lemma dispatch_self (e : event) (r : Runtime) :
  self (snd (dispatch float_repr e r)) = self r.
Proof.
  destruct e as [data|topic payload]; cbn.
  - apply notify_self.
  - destruct (String.eqb topic GET_SPEED_REQUEST_TOPIC); [|reflexivity].
    apply on_get_speed_request_received_self.
Qed.

(** ** [main] *)

Lemma notify_returns (subs : list (string * callback)) (data : DataPointReply) (r : Runtime) :
  fst (notify float_repr subs data r) = Return tt.
Proof.
  revert r. induction subs as [|[p cb] rest IH]; intros r; [reflexivity|].
  cbn [notify]. unfold bind.
  destruct (bool_decide (is_Some (data !! p))); cbn; apply IH.
Qed.

Lemma dispatch_returns (e : event) (r : Runtime) :
  fst (dispatch float_repr e r) = Return tt.
Proof.
  destruct e as [data|topic payload]; cbn.
  - apply notify_returns.
  - destruct (String.eqb topic GET_SPEED_REQUEST_TOPIC); reflexivity.
Qed.

Lemma dispatch_all_returns (events : list event) (r : Runtime) :
  fst (for_each events (dispatch float_repr) r) = Return tt.
Proof.
  revert r. induction events as [|e rest IH]; intros r; [reflexivity|].
  cbn [for_each]. unfold bind.
  pose proof (dispatch_returns e r) as He.
  destruct (dispatch float_repr e r) as [o r']. cbn in He. subst o. apply IH.
Qed.

(** [run] ends the way the environment makes it end. *)
Lemma VehicleApp_run_outcome (events : list event) (ending : run_ending) (r : Runtime) :
  fst (VehicleApp_run float_repr events ending r)
  = match ending with
    | RunReturns => Return tt
    | RunRaises e => Raise e
    | RunForever => Pending
    end.
Proof.
  unfold VehicleApp_run.
  destruct (on_start r) as [o r1] eqn:Hstart.
  assert (o = Return tt) as ->.
  { unfold on_start, DataPoint_subscribe, bind, gets, modify in Hstart. cbn in Hstart.
    congruence. }
  rewrite (bind_Return _ _ r r1 tt Hstart).
  unfold bind.
  pose proof (dispatch_all_returns events r1) as Hd.
  destruct (for_each events (dispatch float_repr) r1) as [o r2]. cbn in Hd. subst o.
  destruct ending; reflexivity.
Qed.

Lemma app_is_unbound : ("app" ∉ module_globals) /\ ("app" ∉ builtins).
Proof.
  split.
  - apply (bool_decide_eq_false_1 ("app" ∈ module_globals)). vm_compute. reflexivity.
  - apply (bool_decide_eq_false_1 ("app" ∈ builtins)). vm_compute. reflexivity.
Qed.

Lemma load_global_app (r : Runtime) : load_global "app" r = (Raise (NameError "app"), r).
Proof.
  unfold load_global.
  destruct app_is_unbound as [Hg Hb].
  rewrite (bool_decide_eq_false_2 _ Hg), (bool_decide_eq_false_2 _ Hb). reflexivity.
Qed.

Lemma load_global_bound (name : string) (r : Runtime) :
  name ∈ module_globals -> load_global name r = (Return tt, r).
Proof. intros H. unfold load_global. now rewrite (bool_decide_eq_true_2 _ H). Qed.

Lemma main_names_bound :
  "logger" ∈ module_globals /\ "SampleApp" ∈ module_globals /\ "vehicle" ∈ module_globals.
Proof.
  repeat split.
  - apply (bool_decide_eq_true_1 ("logger" ∈ module_globals)). vm_compute. reflexivity.
  - apply (bool_decide_eq_true_1 ("SampleApp" ∈ module_globals)). vm_compute. reflexivity.
  - apply (bool_decide_eq_true_1 ("vehicle" ∈ module_globals)). vm_compute. reflexivity.
Qed.

Lemma main_unfold (events : list event) (ending : run_ending) (r : Runtime) :
  main float_repr events ending r
  = (VehicleApp_run float_repr events ending ;; load_global "app" ;; ret tt) (started r).
Proof.
  destruct main_names_bound as (Hl & Hs & Hv).
  unfold main.
  rewrite (bind_Return _ _ r r tt (load_global_bound _ r Hl)).
  rewrite (bind_Return _ _ r (set_console (console r ++
          [{| rec_name := "__main__"; rec_level := INFO; rec_message := "Starting SampleApp..." |}]) r) tt)
    by reflexivity.
  rewrite (bind_Return _ _ _ _ tt (load_global_bound _ _ Hs)).
  rewrite (bind_Return _ _ _ _ tt (load_global_bound _ _ Hv)).
  reflexivity.
Qed.

Lemma main_outcome (events : list event) (ending : run_ending) (r : Runtime) :
  fst (main float_repr events ending r)
  = match ending with
    | RunReturns => Raise (NameError "app")
    | RunRaises e => Raise e
    | RunForever => Pending
    end.
Proof.
  rewrite main_unfold. unfold bind at 1.
  pose proof (VehicleApp_run_outcome events ending (started r)) as Ho.
  destruct (VehicleApp_run float_repr events ending (started r)) as [o r'].
  cbn in Ho. subst o.
  destruct ending; [unfold bind; now rewrite load_global_app | reflexivity..].
Qed.

(** C9. [app] is bound neither by the module nor by the builtins, so when
    [vehicle_app.run()] returns, the next statement of [main] raises
    [NameError] for [app]. (While [run] does not return, [main] does not get
    there: it stays pending with [run], or raises what [run] raises.) *)
Theorem main_NameError (events : list event) (r : Runtime) :
  fst (main float_repr events RunReturns r) = Raise (NameError "app")
  /\ ("app" ∉ module_globals)
  /\ ("app" ∉ builtins)
  /\ fst (main float_repr events RunForever r) = Pending
  /\ (forall e, fst (main float_repr events (RunRaises e) r) = Raise e).
Proof.
  destruct app_is_unbound as [Hg Hb].
  repeat split; try assumption.
  - apply (main_outcome events RunReturns).
  - apply (main_outcome events RunForever).
  - intros e. apply (main_outcome events (RunRaises e)).
Qed.

End HandlerFacts.

(** ** The crash trial, on the exact value of the draw *)

Lemma digits2_pos_bounds (m : positive) :
  2 ^ (Zpos (digits2_pos m) - 1) <= Zpos m < 2 ^ Zpos (digits2_pos m).
Proof.
  induction m as [p IH|p IH|]; cbn [digits2_pos].
  - rewrite Pos2Z.inj_succ, (Pos2Z.inj_xI p).
    replace (Z.succ (Zpos (digits2_pos p)) - 1) with (Z.succ (Zpos (digits2_pos p) - 1)) by lia.
    rewrite !Z.pow_succ_r by lia.
    generalize dependent (2 ^ (Zpos (digits2_pos p) - 1)).
    generalize dependent (2 ^ Zpos (digits2_pos p)). lia.
  - rewrite Pos2Z.inj_succ, (Pos2Z.inj_xO p).
    replace (Z.succ (Zpos (digits2_pos p)) - 1) with (Z.succ (Zpos (digits2_pos p) - 1)) by lia.
    rewrite !Z.pow_succ_r by lia.
    generalize dependent (2 ^ (Zpos (digits2_pos p) - 1)).
    generalize dependent (2 ^ Zpos (digits2_pos p)). lia.
  - cbn. lia.
Qed.

(** The mantissa of a double has at most 53 bits, and exactly 53 above the
    subnormal range. *)
Lemma bounded_mantissa (m : positive) (e : Z) :
  bounded prec emax m e = true ->
  Zpos m < 2 ^ 53 /\ (-1074 < e -> 2 ^ 52 <= Zpos m).
Proof.
  unfold bounded, canonical_mantissa, fexp, emin, prec, emax.
  intros H. apply andb_prop in H as [H _]. apply Z.eqb_eq in H.
  pose proof (digits2_pos_bounds m) as [Hlo Hhi].
  split.
  - apply Z.lt_le_trans with (1 := Hhi). apply Z.pow_le_mono_r; lia.
  - intros He. replace 52 with (Zpos (digits2_pos m) - 1) by lia. exact Hlo.
Qed.

Lemma compare_cont_Eq (p q : positive) : Pos.compare_cont Eq p q = (p ?= q)%positive.
Proof. reflexivity. Qed.

(** The literal [0.01] is the double 5764607523034235 * 2^-59, the one
    nearest to 1/100 and just above it. *)
Lemma threshold_bits : Prim2SF 0.01%float = S754_finite false 5764607523034235 (-59).
Proof. reflexivity. Qed.

(** Comparing a finite double with the literal [0.01] is comparing its exact
    value with 1/100: no double lies between the two. *)
Lemma below_threshold (x : float) (q : Q) :
  float_value x = Some q ->
  (x <? 0.01)%float = true <-> (q < 1 # 100)%Q.
Proof.
  unfold float_value. rewrite FloatAxioms.ltb_spec, threshold_bits.
  pose proof (Prim2SF_valid x) as Hvalid.
  destruct (Prim2SF x) as [s|s| |s m e]; cbn [SF2Q]; try discriminate.
  - intros [= <-]. split; reflexivity.
  - intros [= <-]. cbn [valid_binary] in Hvalid.
    apply bounded_mantissa in Hvalid as [Hhi Hlo].
    destruct s.
    + split; [intros _|reflexivity].
      destruct e as [|p|p]; unfold Qlt; cbn [Qnum Qden inject_Z]; lia.
    + unfold SFltb, SFcompare.
      destruct (Z.compare_spec e (-59)) as [->|He|He].
      * rewrite compare_cont_Eq.
        unfold Qlt; cbn [Qnum Qden].
        change (Zpos (2 ^ 59)%positive) with 576460752303423488.
        destruct (Pos.compare_spec m 5764607523034235%positive) as [Hm|Hm|Hm].
        -- split; [discriminate|]. lia.
        -- split; [intros _|reflexivity]. apply Pos2Z.pos_lt_pos in Hm. lia.
        -- split; [discriminate|]. apply Pos2Z.pos_lt_pos in Hm. lia.
      * split; [intros _|reflexivity].
        destruct e as [|p|p]; try lia.
        unfold Qlt; cbn [Qnum Qden]. rewrite Pos2Z.inj_pow.
        assert (2 ^ 60 <= 2 ^ Zpos p) by (apply Z.pow_le_mono_r; lia).
        lia.
      * split; [discriminate|]. intros Hq. exfalso.
        specialize (Hlo ltac:(lia)).
        destruct e as [|p|p]; unfold Qlt in Hq; cbn [Qnum Qden inject_Z] in Hq; try lia.
        rewrite Pos2Z.inj_pow in Hq.
        assert (2 ^ Zpos p <= 2 ^ 58) by (apply Z.pow_le_mono_r; lia).
        lia.
Qed.

(** C5. With the draw taken as an input of exact value [q],
    [random_vehicle_crash] returns true exactly when [q < 1/100], and false
    otherwise. On the generator's grid of draws [k / 2^53] it therefore fires
    for the 90071992547410 smallest of the 2^53 values, which is 1/100 of
    them to within 2^-53. *)
Theorem random_vehicle_crash_threshold (r : Runtime) (q : Q) :
  float_value (entropy r (drawn r)) = Some q ->
  (fst (random_vehicle_crash r) = Return true <-> (q < 1 # 100)%Q)
  /\ (fst (random_vehicle_crash r) = Return false <-> ~ (q < 1 # 100)%Q)
  /\ (forall k : Z, (q == k # 9007199254740992)%Q ->
        (fst (random_vehicle_crash r) = Return true <-> k < 90071992547410)).
Proof.
  intros Hq. rewrite random_vehicle_crash_run. cbn [fst].
  pose proof (below_threshold _ _ Hq) as Hlt.
  assert (Htrue : Return (entropy r (drawn r) <? 0.01)%float = Return true <-> (q < 1 # 100)%Q).
  { rewrite <- Hlt. split; [intros [= ->]; reflexivity | intros ->; reflexivity]. }
  split; [exact Htrue|]. split.
  - rewrite <- Hlt. destruct (entropy r (drawn r) <? 0.01)%float; split; congruence.
  - intros k Hk. rewrite Htrue, Hk. unfold Qlt. cbn [Qnum Qden]. lia.
Qed.

(** ** The log directory at import time *)

Lemma entry_get_set (name : string) (x : node) (es : list (string * node)) :
  entry_get name (entry_set name x es) = Some x.
Proof.
  induction es as [|[n y] rest IH]; cbn.
  - now rewrite String.eqb_refl.
  - destruct (String.eqb name n) eqn:E; cbn; rewrite E; [reflexivity | exact IH].
Qed.

Lemma entry_set_same (name : string) (x : node) (es : list (string * node)) :
  entry_get name es = Some x -> entry_set name x es = es.
Proof.
  induction es as [|[n y] rest IH]; cbn; [discriminate|].
  destruct (String.eqb name n) eqn:E.
  - now intros [= ->].
  - intros H. now rewrite IH.
Qed.

Lemma entry_get_fresh (name : string) (es : list (string * node)) :
  name ∉ map fst es -> entry_get name es = None.
Proof.
  induction es as [|[n y] rest IH]; cbn; [reflexivity|].
  intros Hn. apply not_elem_of_cons in Hn as [Hne Hn].
  destruct (String.eqb_spec name n) as [->|_]; [contradiction | now apply IH].
Qed.

Lemma entry_del_fresh (name : string) (es : list (string * node)) :
  name ∉ map fst es -> entry_del name es = es.
Proof.
  induction es as [|[n y] rest IH]; cbn; [reflexivity|].
  intros Hn. apply not_elem_of_cons in Hn as [Hne Hn].
  destruct (String.eqb_spec name n) as [->|_]; [contradiction | now rewrite IH].
Qed.

(** Changing the entries of the directory at [p]. *)
Lemma fs_in_dir_Return (path : string) (p : list string) f (n : node) es es' :
  lookup_path p n = Some (Dir es) ->
  f es = Return es' ->
  exists n', fs_in_dir path p f n = Return n' /\ lookup_path p n' = Some (Dir es').
Proof.
  revert n. induction p as [|c p IH]; intros n Hn Hf.
  - cbn in Hn. injection Hn as ->. cbn. rewrite Hf. now eexists.
  - destruct n as [?|es0]; cbn in Hn; [discriminate|].
    destruct (entry_get c es0) as [child|] eqn:Hc; [|discriminate].
    destruct (IH child Hn Hf) as (child' & Hrun & Hlook).
    cbn. rewrite Hc, Hrun. eexists. split; [reflexivity|].
    cbn. now rewrite entry_get_set.
Qed.

Lemma fs_in_dir_Raise (path : string) (p : list string) f (n : node) es e :
  lookup_path p n = Some (Dir es) ->
  f es = Raise e ->
  fs_in_dir path p f n = Raise e.
Proof.
  revert n. induction p as [|c p IH]; intros n Hn Hf.
  - cbn in Hn. injection Hn as ->. cbn. now rewrite Hf.
  - destruct n as [?|es0]; cbn in Hn; [discriminate|].
    destruct (entry_get c es0) as [child|] eqn:Hc; [|discriminate].
    cbn. now rewrite Hc, (IH child Hn Hf).
Qed.

(** [makedirs] with [exist_ok] leaves an existing directory as it is. *)
Lemma fs_makedirs_existing (path : string) (p : list string) (n : node) es :
  lookup_path p n = Some (Dir es) -> fs_makedirs path p n = Return n.
Proof.
  revert n path. induction p as [|c p IH]; intros n path Hn.
  - cbn in Hn. injection Hn as ->. reflexivity.
  - destruct n as [?|es0]; cbn in Hn; [discriminate|].
    destruct (entry_get c es0) as [child|] eqn:Hc; [|discriminate].
    cbn [fs_makedirs]. rewrite Hc.
    change (default (Dir []) (Some child)) with child.
    rewrite (IH child _ Hn). now rewrite (entry_set_same _ _ _ Hc).
Qed.

(** A valid name is one path component. *)
Lemma split_path_from_name (cur name : string) :
  has_slash name = false ->
  cur +:+ name <> EmptyString ->
  split_path_from cur name = [cur +:+ name].
Proof.
  revert cur. induction name as [|c rest IH]; intros cur Hs Hne.
  - rewrite append_nil_r in *. cbn. destruct cur; [contradiction | reflexivity].
  - cbn in Hs. apply orb_false_elim in Hs as [Hc Hs].
    cbn [split_path_from]. rewrite Hc.
    rewrite IH; [|exact Hs|].
    + now rewrite append_assoc.
    + rewrite append_assoc. exact Hne.
Qed.

Lemma split_log_path (name : string) :
  valid_name name -> split_path (SPEED_LOG_PATH +:+ name) = LOG_DIR ++ [name].
Proof.
  intros [Hne Hs].
  change (split_path (SPEED_LOG_PATH +:+ name))
    with ("logs" :: "vehicle" :: "crash_diagnostic" :: split_path_from EmptyString name).
  now rewrite (split_path_from_name EmptyString name Hs Hne).
Qed.

Lemma parent_and_name_log (name : string) :
  valid_name name -> parent_and_name (SPEED_LOG_PATH +:+ name) = Some (LOG_DIR, name).
Proof.
  intros Hv. unfold parent_and_name. rewrite (split_log_path _ Hv). reflexivity.
Qed.

Lemma unlink_no_Pending (path name : string) (es : list (string * node)) :
  unlink path name es <> Pending.
Proof. unfold unlink. destruct (entry_get name es) as [[?|?]|]; discriminate. Qed.

(** The loop of the module follows [unlink_each] on the log directory. *)
Lemma remove_loop (names : list string) (r : Runtime) (es : list (string * node)) :
  lookup_path LOG_DIR (fs r) = Some (Dir es) ->
  Forall valid_name names ->
  exists r',
    outside_fs r' = outside_fs r
    /\ match unlink_each names es with
       | Return es' =>
           for_each names (fun file => os_remove (SPEED_LOG_PATH +:+ file)) r = (Return tt, r')
           /\ lookup_path LOG_DIR (fs r') = Some (Dir es')
       | Raise e =>
           for_each names (fun file => os_remove (SPEED_LOG_PATH +:+ file)) r = (Raise e, r')
       | Pending => False
       end.
Proof.
  revert r es. induction names as [|name rest IH]; intros r es Hdir Hnames.
  - exists r. split; [reflexivity|]. cbn. now split.
  - apply Forall_cons in Hnames as [Hname Hrest].
    cbn [unlink_each for_each].
    destruct (unlink (SPEED_LOG_PATH +:+ name) name es) as [es1|e|] eqn:Hu.
    + destruct (fs_in_dir_Return (SPEED_LOG_PATH +:+ name) LOG_DIR _ _ _ _ Hdir Hu)
        as (n' & Hrun & Hlook).
      assert (Hstep : os_remove (SPEED_LOG_PATH +:+ name) r = (Return tt, set_fs n' r)).
      { unfold os_remove, on_fs, fs_remove. rewrite (parent_and_name_log _ Hname).
        now rewrite Hrun. }
      rewrite (bind_Return _ _ _ _ _ Hstep).
      destruct (IH (set_fs n' r) es1 Hlook Hrest) as (r' & Hout & Hloop).
      exists r'. split; [now rewrite Hout | exact Hloop].
    + exists r. split; [reflexivity|].
      apply bind_Raise.
      unfold os_remove, on_fs, fs_remove. rewrite (parent_and_name_log _ Hname).
      now rewrite (fs_in_dir_Raise _ _ _ _ _ _ Hdir Hu).
    + now apply unlink_no_Pending in Hu.
Qed.

(** On the listing of the directory itself, the loop removes the files in
    order and stops at the first entry that is a directory. *)
Lemma unlink_each_listing (es : list (string * node)) :
  NoDup (map fst es) ->
  unlink_each (map fst es) es
  = match first_dir es with
    | None => Return []
    | Some name => Raise (OSError "IsADirectoryError" (SPEED_LOG_PATH +:+ name))
    end.
Proof.
  induction es as [|[n x] rest IH]; intros Hnd; [reflexivity|].
  cbn [map fst] in Hnd. apply NoDup_cons in Hnd as [Hfresh Hnd].
  cbn [map fst unlink_each first_dir]. unfold unlink. cbn [entry_get entry_del].
  rewrite String.eqb_refl.
  destruct x as [content|sub]; [|reflexivity].
  rewrite (entry_del_fresh _ _ Hfresh). now apply IH.
Qed.

Lemma first_dir_None (es : list (string * node)) :
  first_dir es = None <-> Forall (fun e => is_file (snd e)) es.
Proof.
  induction es as [|[n x] rest IH]; cbn.
  - split; [constructor | reflexivity].
  - destruct x as [content|sub].
    + rewrite IH. split; [now constructor | now inversion 1].
    + split; [discriminate | inversion 1; contradiction].
Qed.

Lemma log_dir_names :
  os_path_dirname SPEED_LOG_PATH = "logs/vehicle/crash_diagnostic"
  /\ split_path "logs/vehicle/crash_diagnostic" = LOG_DIR
  /\ split_path SPEED_LOG_PATH = LOG_DIR
  /\ parent_and_name (SPEED_LOG_PATH +:+ SPEED_LOGGER_NAME +:+ ".log") = Some (LOG_DIR, "speed.log").
Proof. repeat split; vm_compute; reflexivity. Qed.

(** The whole set-up on an existing log directory with the entries [es]. *)
Lemma log_dir_setup_run (r : Runtime) (es : list (string * node)) :
  lookup_path LOG_DIR (fs r) = Some (Dir es) ->
  NoDup (map fst es) ->
  Forall valid_name (map fst es) ->
  exists r',
    outside_fs r' = outside_fs r
    /\ match first_dir es with
       | None =>
           log_dir_setup r = (Return tt, r')
           /\ lookup_path LOG_DIR (fs r') = Some (Dir [("speed.log", File EmptyString)])
       | Some name =>
           log_dir_setup r = (Raise (OSError "IsADirectoryError" (SPEED_LOG_PATH +:+ name)), r')
       end.
Proof.
  intros Hdir Hnd Hnames.
  destruct log_dir_names as (Hdn & Hsplit & Hsplit' & Hlog).
  unfold log_dir_setup.
  assert (Hmk : os_makedirs (os_path_dirname SPEED_LOG_PATH) r = (Return tt, set_fs (fs r) r)).
  { unfold os_makedirs, on_fs. rewrite Hdn, Hsplit.
    now rewrite (fs_makedirs_existing _ _ _ _ Hdir). }
  rewrite (bind_Return _ _ _ _ _ Hmk).
  assert (Hls : os_listdir SPEED_LOG_PATH (set_fs (fs r) r)
                = (Return (map fst es), set_fs (fs r) r)).
  { unfold os_listdir, fs_listdir. rewrite Hsplit'. cbn [fs set_fs]. now rewrite Hdir. }
  rewrite (bind_Return _ _ _ _ _ Hls).
  destruct (remove_loop (map fst es) (set_fs (fs r) r) es Hdir Hnames) as (r1 & Hout & Hloop).
  rewrite (unlink_each_listing es Hnd) in Hloop.
  destruct (first_dir es) as [name|].
  - exists r1. split; [exact Hout|]. now apply bind_Raise.
  - destruct Hloop as [Hloop Hempty].
    rewrite (bind_Return _ _ _ _ _ Hloop).
    destruct (fs_in_dir_Return (SPEED_LOG_PATH +:+ SPEED_LOGGER_NAME +:+ ".log") LOG_DIR
                (create (SPEED_LOG_PATH +:+ SPEED_LOGGER_NAME +:+ ".log") "speed.log")
                (fs r1) [] [("speed.log", File EmptyString)] Hempty eq_refl)
      as (n' & Hrun & Hlook).
    exists (set_fs n' r1). split; [exact Hout|]. split; [|exact Hlook].
    unfold TimedRotatingFileHandler__init__, on_fs, fs_open_append.
    rewrite Hlog. now rewrite Hrun.
Qed.

(** C10. The log set-up runs at import time, ahead of [main] and so of every
    handler. On a log directory with the entries [es]: when they are all
    regular files, as those the handler itself writes are, the set-up
    completes; whenever it completes, the directory holds nothing but a new,
    empty [speed.log], so no line of an earlier run is left; it touches
    nothing but the file system; and when it raises, which it does at a
    directory among the entries, the module ends there, before [main] is
    entered. *)
Theorem log_dir_setup_clears (r : Runtime) (es : list (string * node)) :
  lookup_path LOG_DIR (fs r) = Some (Dir es) ->
  NoDup (map fst es) ->
  Forall valid_name (map fst es) ->
  let run := log_dir_setup r in
  (Forall (fun e => is_file (snd e)) es -> fst run = Return tt)
  /\ (fst run = Return tt ->
      lookup_path LOG_DIR (fs (snd run)) = Some (Dir [("speed.log", File EmptyString)]))
  /\ outside_fs (snd run) = outside_fs r
  /\ (forall float_repr events ending e,
        fst run = Raise e -> module_body float_repr events ending r = (Raise e, snd run)).
Proof.
  intros Hdir Hnd Hnames. cbv zeta.
  destruct (log_dir_setup_run r es Hdir Hnd Hnames) as (r' & Hout & Hrun).
  destruct (first_dir es) as [name|] eqn:Hfirst.
  - rewrite Hrun. cbn [fst snd]. split; [|split; [|split]].
    + intros Hfiles. apply first_dir_None in Hfiles. congruence.
    + discriminate.
    + exact Hout.
    + intros float_repr events ending e [= <-]. unfold module_body.
      now apply bind_Raise.
  - destruct Hrun as [Hrun Hlook]. rewrite Hrun. cbn [fst snd]. split; [|split; [|split]].
    + reflexivity.
    + intros _. exact Hlook.
    + exact Hout.
    + discriminate.
Qed.

(** * The properties at work on the sample runtime *)

(** An integer speed never reaches the float printer, so any will do here. *)
Lemma on_speed_change_echo_witness :
  mqtt (snd (on_speed_change (fun _ => EmptyString) {[ "Vehicle.Speed" := PyInt 42 ]} runtime0))
  = [("sampleapp/currentSpeed", "{" +:+ quoted "speed" +:+ ": 42}")]
  /\ speed_log (snd (on_speed_change (fun _ => EmptyString)
                       {[ "Vehicle.Speed" := PyInt 42 ]} runtime0))
     = ["2024-05-17 10:15:00,000 [speed] - vehicle_speed 42"].
Proof.
  assert (H : ({[ "Vehicle.Speed" := PyInt 42 ]} : DataPointReply)
              !! get_path (Speed (App.Vehicle (self runtime0))) = Some (PyInt 42))
    by (vm_compute; reflexivity).
  destruct (on_speed_change_echo (fun _ => EmptyString) _ (PyInt 42) runtime0 H)
    as (_ & _ & _ & _ & Hint & _).
  destruct (Hint 42 eq_refl) as (Hmqtt & Hlog & _).
  exact (conj Hmqtt Hlog).
Defined.

(** The first draw of the sample generator is below the threshold. *)
Lemma on_crashed_change_publish_witness :
  mqtt (snd (on_crashed_change (fun _ => EmptyString) ∅ runtime0))
  = [("sampleapp/crashed", "{" +:+ quoted "crashed " +:+ ": true}")].
Proof.
  assert (H : fst (random_vehicle_crash runtime0) = Return true) by (vm_compute; reflexivity).
  exact (proj2 (on_crashed_change_publish (fun _ => EmptyString) ∅ runtime0 true H)).
Defined.

Lemma get_speed_response_42_witness :
  mqtt (snd (on_get_speed_request_received (fun _ => EmptyString) "anything" runtime0))
  = [("sampleapp/getSpeed/response",
      "{" +:+ quoted "result" +:+ ": {" +:+ quoted "status" +:+ ": 0, "
        +:+ quoted "message" +:+ ": " +:+ quoted "Current Speed = 42" +:+ "}}")].
Proof.
  assert (H : broker runtime0 !! get_path (Speed (App.Vehicle (self runtime0))) = Some (PyInt 42))
    by (vm_compute; reflexivity).
  exact (proj1 (proj2 (get_speed_response_42 (fun _ => EmptyString) "anything" runtime0 H))).
Defined.

Lemma get_speed_response_status_witness :
  fst (on_get_speed_request_received (fun _ => EmptyString) "how fast?" runtime0) = Return tt
  /\ py_path (get_speed_response (fun _ => EmptyString) (PyInt 42)) ["result"; "status"]
     = Some (PyVal (PyInt 0)).
Proof.
  assert (H : broker runtime0 !! get_path (Speed (App.Vehicle (self runtime0))) = Some (PyInt 42))
    by (vm_compute; reflexivity).
  destruct (get_speed_response_status (fun _ => EmptyString) "how fast?" (PyInt 42) runtime0 H)
    as (Hret & _ & Hstatus & _).
  exact (conj Hret Hstatus).
Defined.

(** The first draw of the sample generator is the double of 0.005, that is
    5764607523034235 / 2^60. *)
Lemma random_vehicle_crash_threshold_witness :
  fst (random_vehicle_crash runtime0) = Return true.
Proof.
  assert (H : float_value (entropy runtime0 (drawn runtime0))
              = Some (5764607523034235 # 1152921504606846976)%Q)
    by (vm_compute; reflexivity).
  apply (proj1 (random_vehicle_crash_threshold runtime0 _ H)).
  reflexivity.
Defined.

Lemma old_logs_wf :
  NoDup (map fst old_logs)
  /\ Forall valid_name (map fst old_logs)
  /\ Forall (fun e => is_file (snd e)) old_logs.
Proof.
  split; [|split].
  - apply (bool_decide_unpack _). vm_compute. exact I.
  - repeat constructor; discriminate.
  - repeat constructor.
Defined.

Lemma log_dir_setup_clears_witness :
  fst (log_dir_setup runtime0) = Return tt
  /\ lookup_path LOG_DIR (fs (snd (log_dir_setup runtime0)))
     = Some (Dir [("speed.log", File EmptyString)]).
Proof.
  destruct old_logs_wf as (Hnd & Hnames & Hfiles).
  destruct (log_dir_setup_clears runtime0 old_logs eq_refl Hnd Hnames) as (Hok & Hclear & _).
  exact (conj (Hok Hfiles) (Hclear (Hok Hfiles))).
Defined.

(** The removal loop has no case for a directory. With one among the
    entries, [os.remove] raises on it and the module ends there: the rotated
    file listed after it is still in place, with its line of the earlier
    run. *)
Lemma log_dir_setup_keeps_old_file :
  lookup_path (LOG_DIR ++ ["speed.log.10-14-50"]) (fs runtime_archive)
  = Some (File "older line")
  /\ fst (log_dir_setup runtime_archive)
     = Raise (OSError "IsADirectoryError" "logs/vehicle/crash_diagnostic/archive")
  /\ fst (module_body (fun _ => EmptyString) [] RunForever runtime_archive)
     = Raise (OSError "IsADirectoryError" "logs/vehicle/crash_diagnostic/archive")
  /\ lookup_path (LOG_DIR ++ ["speed.log.10-14-50"])
       (fs (snd (module_body (fun _ => EmptyString) [] RunForever runtime_archive)))
     = Some (File "older line").
Proof. vm_compute. repeat split; reflexivity. Qed.

(** ** Further runs *)

(** A speed that is a float goes through the interpreter's printer: with the
    broker at 42.0, which Python prints as [42.0], the message reads
    [Current Speed = 42.0]. *)
Lemma get_speed_response_float (float_repr : float -> string) (f : float) :
  py_path (get_speed_response float_repr (PyFloat f)) ["result"; "message"]
  = Some (PyVal (PyStr ("Current Speed = " +:+ float_repr f))).
Proof. reflexivity. Qed.

(** A true trial: one message on [sampleapp/crashed]. A false one: none. *)
Example crash_published :
  mqtt (snd (on_crashed_change (fun _ => EmptyString) ∅ runtime0))
  = [("sampleapp/crashed", "{" +:+ quoted "crashed " +:+ ": true}")].
Proof. vm_compute. reflexivity. Qed.

Example no_crash_nothing_published :
  mqtt (snd (on_crashed_change (fun _ => EmptyString) ∅ (set_drawn 1 runtime0))) = [].
Proof. vm_compute. reflexivity. Qed.

(** The two draws of the generator's grid on either side of 1/100. *)
Example crash_trial_boundary :
  let draw k := (of_uint63 k * (1 / 9007199254740992))%float in
  (draw 90071992547409%uint63 <? 0.01)%float = true
  /\ (draw 90071992547410%uint63 <? 0.01)%float = false.
Proof. vm_compute. split; reflexivity. Qed.

(** A whole run: start, one speed notification, one request, then [run]
    returns and [main] fails on [app]. *)
Example module_run :
  let r := snd (module_body (fun _ => EmptyString)
                  [SignalChange {[ "Vehicle.Speed" := PyInt 42 ]};
                   TopicMessage "sampleapp/getSpeed" "anything"]
                  RunReturns runtime0) in
  fst (module_body (fun _ => EmptyString)
         [SignalChange {[ "Vehicle.Speed" := PyInt 42 ]};
          TopicMessage "sampleapp/getSpeed" "anything"]
         RunReturns runtime0) = Raise (NameError "app")
  /\ map fst (mqtt r)
     = ["sampleapp/currentSpeed"; "sampleapp/crashed"; "sampleapp/getSpeed/response"]
  /\ speed_log r = ["2024-05-17 10:15:00,000 [speed] - vehicle_speed 42"]
  /\ lookup_path LOG_DIR (fs r)
     = Some (Dir [("speed.log",
                   File ("2024-05-17 10:15:00,000 [speed] - vehicle_speed 42"
                         +:+ String "010" EmptyString))]).
Proof. vm_compute. repeat split; reflexivity. Qed.

(** A directory among the entries stops the set-up at import time: the module
    raises there, no handler ever runs, and what is listed after the directory
    stays. *)
Example log_dir_setup_subdirectory :
  let r := set_fs (Dir [("logs", Dir [("vehicle", Dir [("crash_diagnostic",
                 Dir [("speed.log", File "old line");
                      ("archive", Dir []);
                      ("speed.log.10-14-50", File "older line")])])])]) runtime0 in
  module_body (fun _ => EmptyString) [SignalChange {[ "Vehicle.Speed" := PyInt 42 ]}] RunForever r
  = (Raise (OSError "IsADirectoryError" "logs/vehicle/crash_diagnostic/archive"),
     set_fs (Dir [("logs", Dir [("vehicle", Dir [("crash_diagnostic",
                 Dir [("archive", Dir []);
                      ("speed.log.10-14-50", File "older line")])])])]) runtime0).
Proof. vm_compute. reflexivity. Qed.

(** With no [logs] directory yet, the set-up makes it and opens the file. *)
Example log_dir_setup_fresh :
  log_dir_setup (set_fs (Dir []) runtime0)
  = (Return tt,
     set_fs (Dir [("logs", Dir [("vehicle", Dir [("crash_diagnostic",
                 Dir [("speed.log", File EmptyString)])])])]) runtime0).
Proof. vm_compute. reflexivity. Qed.

(** * Further properties *)

(** ** Failing reads *)

(** X2. When the broker has no speed to give, the request handler raises
    after its debug record and before any publish: no response is sent, with
    no status at all, and only the console has changed. *)
Theorem get_speed_request_read_fails (float_repr : float -> string)
    (data : string) (r : Runtime) :
  broker r !! get_path (Speed (App.Vehicle (self r))) = None ->
  on_get_speed_request_received float_repr data r
  = (Raise (BrokerError (get_path (Speed (App.Vehicle (self r))))),
     set_console (console r ++ [request_record data]) r).
Proof.
  intros Hv. unfold on_get_speed_request_received, DataPoint_get, bind, gets. cbn.
  rewrite Hv. reflexivity.
Qed.

Lemma get_speed_request_read_fails_witness :
  on_get_speed_request_received (fun _ => EmptyString) "anything" (runtime_at ∅)
  = (Raise (BrokerError "Vehicle.Speed"),
     set_console [request_record "anything"] (runtime_at ∅)).
Proof.
  assert (H : broker (runtime_at ∅) !! get_path (Speed (App.Vehicle (self (runtime_at ∅)))) = None)
    by (vm_compute; reflexivity).
  exact (get_speed_request_read_fails (fun _ => EmptyString) "anything" (runtime_at ∅) H).
Defined.

(** ** What a handler leaves alone *)

Lemma on_crashed_change_beside (float_repr : float -> string)
    (data : DataPointReply) (r : Runtime) :
  beside_crash (snd (on_crashed_change float_repr data r)) = beside_crash r.
Proof.
  rewrite on_crashed_change_run. cbn [snd].
  destruct (entropy r (drawn r) <? 0.01)%float; reflexivity.
Qed.

Lemma on_get_speed_request_received_beside (float_repr : float -> string)
    (data : string) (r : Runtime) :
  beside_request (snd (on_get_speed_request_received float_repr data r)) = beside_request r.
Proof.
  unfold on_get_speed_request_received, DataPoint_get, bind, gets. cbn.
  destruct (broker r !! get_path (Speed (App.Vehicle (self r)))); reflexivity.
Qed.

Lemma on_speed_change_beside (float_repr : float -> string)
    (data : DataPointReply) (r : Runtime) :
  beside_speed (snd (on_speed_change float_repr data r)) = beside_speed r.
Proof.
  unfold on_speed_change, bind, gets, DataPointReply_get. cbn.
  destruct (data !! get_path (Speed (App.Vehicle (self r)))); reflexivity.
Qed.

(** X3. The crash simulator never writes a log record, on the console or in
    the diagnostic log, and leaves the file system alone; the request handler
    never writes the diagnostic log, never takes a draw and leaves the file
    system alone; the signal listener never takes a draw; and none of the
    three touches the subscriptions or the broker. *)
Theorem handlers_frame (float_repr : float -> string) (r : Runtime) :
  (forall data, beside_crash (snd (on_crashed_change float_repr data r)) = beside_crash r)
  /\ (forall data,
        beside_request (snd (on_get_speed_request_received float_repr data r)) = beside_request r)
  /\ (forall data, beside_speed (snd (on_speed_change float_repr data r)) = beside_speed r).
Proof.
  split; [|split]; intros data.
  - apply on_crashed_change_beside.
  - apply on_get_speed_request_received_beside.
  - apply on_speed_change_beside.
Qed.

(** X4. A handler only ever adds to what was published, at most one message
    a call, and only on its own topic: [sampleapp/currentSpeed] for the
    signal listener, [sampleapp/crashed] for the crash simulator,
    [sampleapp/getSpeed/response] for the request handler. *)
Theorem handlers_publish_own_topic (float_repr : float -> string) (r : Runtime) :
  (forall data,
      mqtt (snd (on_speed_change float_repr data r)) = mqtt r
      \/ exists payload,
           mqtt (snd (on_speed_change float_repr data r))
           = mqtt r ++ [(DATABROKER_SUBSCRIPTION_TOPIC_SPEED, payload)])
  /\ (forall data,
        mqtt (snd (on_crashed_change float_repr data r)) = mqtt r
        \/ exists payload,
             mqtt (snd (on_crashed_change float_repr data r))
             = mqtt r ++ [(DATABROKER_SUBSCRIPTION_TOPIC_CRASHED, payload)])
  /\ (forall data,
        mqtt (snd (on_get_speed_request_received float_repr data r)) = mqtt r
        \/ exists payload,
             mqtt (snd (on_get_speed_request_received float_repr data r))
             = mqtt r ++ [(GET_SPEED_RESPONSE_TOPIC, payload)]).
Proof.
  split; [|split]; intros data.
  - unfold on_speed_change, bind, gets, DataPointReply_get. cbn.
    destruct (data !! get_path (Speed (App.Vehicle (self r)))); cbn; eauto.
  - rewrite on_crashed_change_run. cbn [snd].
    destruct (entropy r (drawn r) <? 0.01)%float; cbn; eauto.
  - unfold on_get_speed_request_received, DataPoint_get, bind, gets. cbn.
    destruct (broker r !! get_path (Speed (App.Vehicle (self r)))); cbn; eauto.
Qed.

(** ** The response for an integer speed *)

Lemma escape_char_plain (c : ascii) : plain_char c = true -> escape_char c = String c EmptyString.
Proof.
  unfold plain_char, escape_char. intros H.
  apply andb_prop in H as [H H4]. apply andb_prop in H as [H H3].
  apply andb_prop in H as [H1 H2].
  apply negb_true_iff in H1. apply negb_true_iff in H2.
  now rewrite H1, H2, H3, H4.
Qed.

Lemma escape_text_plain (s : string) : plain s = true -> escape_text s = s.
Proof.
  induction s as [|c rest IH]; cbn; [reflexivity|].
  intros H. apply andb_prop in H as [Hc Hrest].
  rewrite (escape_char_plain c Hc), (IH Hrest). reflexivity.
Qed.

Lemma plain_append (a b : string) : plain (a +:+ b) = plain a && plain b.
Proof.
  induction a as [|c a IH]; [reflexivity|].
  change (plain (String c (a +:+ b)) = plain (String c a) && plain b).
  cbn [plain]. now rewrite IH, andb_assoc.
Qed.

Lemma plain_digits (d : Decimal.uint) : plain (NilEmpty.string_of_uint d) = true.
Proof. induction d; cbn [NilEmpty.string_of_uint plain]; [reflexivity | now rewrite IHd ..]. Qed.

(** A decimal numeral has nothing to escape. *)
Lemma plain_int_repr (z : Z) : plain (int_repr z) = true.
Proof.
  unfold int_repr, NilZero.string_of_int, NilZero.string_of_uint.
  destruct (Z.to_int z) as [d|d]; destruct d; try reflexivity;
    try apply (plain_digits (_ _));
    cbn [plain]; rewrite ?(plain_digits (_ _)); reflexivity.
Qed.

(** X5. For every integer speed [z] the broker returns, the text sent to
    [sampleapp/getSpeed/response] is, character for character,
    [{"result": {"status": 0, "message": "Current Speed = z"}}] with [z] in
    decimal: the numeral needs no escaping. *)
Theorem get_speed_response_int (float_repr : float -> string)
    (data : string) (z : Z) (r : Runtime) :
  broker r !! get_path (Speed (App.Vehicle (self r))) = Some (PyInt z) ->
  mqtt (snd (on_get_speed_request_received float_repr data r))
  = mqtt r ++
      [("sampleapp/getSpeed/response",
        "{" +:+ quoted "result" +:+ ": {" +:+ quoted "status" +:+ ": 0, "
          +:+ quoted "message" +:+ ": " +:+ quoted ("Current Speed = " +:+ int_repr z) +:+ "}}")].
Proof.
  intros Hv. rewrite (on_get_speed_request_received_ok float_repr data _ r Hv).
  cbn [snd mqtt set_mqtt]. do 3 f_equal.
  unfold get_speed_response. cbn. unfold encode_basestring_ascii, quoted.
  rewrite (escape_text_plain ("Current Speed = " +:+ int_repr z)).
  - rewrite !append_assoc. reflexivity.
  - rewrite plain_append, plain_int_repr. reflexivity.
Qed.

Lemma get_speed_response_int_witness :
  mqtt (snd (on_get_speed_request_received (fun _ => EmptyString) "anything"
               (runtime_at {[ "Vehicle.Speed" := PyInt (-7) ]})))
  = [("sampleapp/getSpeed/response",
      "{" +:+ quoted "result" +:+ ": {" +:+ quoted "status" +:+ ": 0, "
        +:+ quoted "message" +:+ ": " +:+ quoted "Current Speed = -7" +:+ "}}")].
Proof.
  assert (H : broker (runtime_at {[ "Vehicle.Speed" := PyInt (-7) ]})
              !! get_path (Speed (App.Vehicle (self (runtime_at {[ "Vehicle.Speed" := PyInt (-7) ]}))))
              = Some (PyInt (-7)))
    by (vm_compute; reflexivity).
  exact (get_speed_response_int (fun _ => EmptyString) "anything" (-7) _ H).
Defined.

(** ** Runs of several notifications *)

(** X6. However many notifications the crash simulator is called on, one
    after the other, each call takes the next draw of the generator, and what
    it has published in the end is one crash message for every draw below
    the threshold, no more and no fewer; it has logged nothing and left the
    files alone. The notifications themselves play no part. *)
Theorem crash_trials_in_sequence (float_repr : float -> string)
    (datas : list DataPointReply) (n : nat) (r : Runtime) :
  length datas = n ->
  let run := for_each datas (on_crashed_change float_repr) r in
  fst run = Return tt
  /\ mqtt (snd run)
     = mqtt r ++ repeat ("sampleapp/crashed", "{" +:+ quoted "crashed " +:+ ": true}")
                   (crash_count (entropy r) (drawn r) n)
  /\ drawn (snd run) = (drawn r + n)%nat
  /\ beside_crash (snd run) = beside_crash r.
Proof.
  intros <-. cbv zeta. revert r. induction datas as [|data rest IH]; intros r.
  - cbn. rewrite app_nil_r, Nat.add_0_r. auto.
  - cbn [for_each length crash_count].
    rewrite (bind_Return _ _ _ _ _ (on_crashed_change_run float_repr data r)).
    destruct (entropy r (drawn r) <? 0.01)%float;
      match goal with
      | |- context [for_each rest _ ?r1] => destruct (IH r1) as (H1 & H2 & H3 & H4)
      end;
      rewrite H1, H2, H3, H4;
      cbn [mqtt drawn entropy set_mqtt set_drawn];
      rewrite <- ?app_assoc; repeat split; try reflexivity; lia.
Qed.

Lemma crash_trials_in_sequence_witness :
  mqtt (snd (for_each [∅; ∅; ∅] (on_crashed_change (fun _ => EmptyString)) runtime0))
  = [("sampleapp/crashed", "{" +:+ quoted "crashed " +:+ ": true}")]
  /\ drawn (snd (for_each [∅; ∅; ∅] (on_crashed_change (fun _ => EmptyString)) runtime0)) = 3%nat.
Proof.
  destruct (crash_trials_in_sequence (fun _ => EmptyString) [∅; ∅; ∅] 3 runtime0 eq_refl)
    as (_ & Hm & Hd & _).
  exact (conj Hm Hd).
Defined.

Lemma speed_notifications_run (float_repr : float -> string)
    (datas : list DataPointReply) (vs : list pyval) (r : Runtime) :
  Forall2 (fun data v => data !! get_path (Speed (App.Vehicle (self r))) = Some v) datas vs ->
  fst (for_each datas (on_speed_change float_repr) r) = Return tt
  /\ mqtt (snd (for_each datas (on_speed_change float_repr) r))
     = mqtt r ++ map (speed_message float_repr) vs
  /\ speed_log (snd (for_each datas (on_speed_change float_repr) r))
     = speed_log r ++ map (speed_line float_repr (asctime r)) vs
  /\ console (snd (for_each datas (on_speed_change float_repr) r))
     = console r ++ map (speed_record float_repr) vs.
Proof.
  intros H. revert vs r H. induction datas as [|data rest IH]; intros vs r H.
  - apply Forall2_nil_inv_l in H as ->. cbn. rewrite !app_nil_r. auto.
  - apply Forall2_cons_inv_l in H as (v & vs' & Hv & Hrest & ->).
    cbn [for_each map].
    rewrite (bind_Return _ _ _ _ _ (on_speed_change_run float_repr data v r Hv)).
    match goal with
    | |- context [for_each rest _ ?r1] => destruct (IH vs' r1 Hrest) as (H1 & H2 & H3 & H4)
    end.
    rewrite H1, H2, H3, H4.
    cbn [mqtt speed_log console asctime set_mqtt set_console set_speed_log set_fs].
    rewrite <- !app_assoc. auto.
Qed.

(** X7. A run of speed notifications is echoed in order and in full: when
    every notification carries a speed, the handler called on one after the
    other returns, and it has added one message, one diagnostic line and one
    console record a notification, in the order of arrival: nothing is
    dropped or merged. For integer speeds the payloads and the lines carry
    the decimal numerals. *)
Theorem speed_notifications_in_sequence (float_repr : float -> string)
    (datas : list DataPointReply) (vs : list pyval) (r : Runtime) :
  Forall2 (fun data v => data !! get_path (Speed (App.Vehicle (self r))) = Some v) datas vs ->
  let run := for_each datas (on_speed_change float_repr) r in
  fst run = Return tt
  /\ mqtt (snd run)
     = mqtt r ++ map (fun v => ("sampleapp/currentSpeed",
                                json_dumps float_repr (PyDict [("speed", PyVal v)]))) vs
  /\ speed_log (snd run)
     = speed_log r
       ++ map (fun v => asctime r +:+ " [speed] - vehicle_speed " +:+ py_str float_repr v) vs
  /\ console (snd run)
     = console r
       ++ map (fun v => {| rec_name := "speed"; rec_level := INFO;
                           rec_message := "vehicle_speed " +:+ py_str float_repr v |}) vs
  /\ (forall zs, vs = map PyInt zs ->
        mqtt (snd run)
        = mqtt r ++ map (fun z => ("sampleapp/currentSpeed",
                                   "{" +:+ quoted "speed" +:+ ": " +:+ int_repr z +:+ "}")) zs
        /\ speed_log (snd run)
           = speed_log r
             ++ map (fun z => asctime r +:+ " [speed] - vehicle_speed " +:+ int_repr z) zs).
Proof.
  intros H. cbv zeta.
  destruct (speed_notifications_run float_repr datas vs r H) as (H1 & H2 & H3 & H4).
  split; [exact H1|]. split; [exact H2|]. split; [exact H3|]. split; [exact H4|].
  intros zs ->. rewrite H2, H3, !map_map. split; reflexivity.
Qed.

Lemma speed_notifications_in_sequence_witness :
  mqtt (snd (for_each [ {[ "Vehicle.Speed" := PyInt 42 ]}; {[ "Vehicle.Speed" := PyInt 43 ]} ]
               (on_speed_change (fun _ => EmptyString)) runtime0))
  = [("sampleapp/currentSpeed", "{" +:+ quoted "speed" +:+ ": 42}");
     ("sampleapp/currentSpeed", "{" +:+ quoted "speed" +:+ ": 43}")]
  /\ speed_log (snd (for_each [ {[ "Vehicle.Speed" := PyInt 42 ]};
                                {[ "Vehicle.Speed" := PyInt 43 ]} ]
                       (on_speed_change (fun _ => EmptyString)) runtime0))
     = ["2024-05-17 10:15:00,000 [speed] - vehicle_speed 42";
        "2024-05-17 10:15:00,000 [speed] - vehicle_speed 43"].
Proof.
  assert (H : Forall2
                (fun (data : DataPointReply) v =>
                   data !! get_path (Speed (App.Vehicle (self runtime0))) = Some v)
                [ {[ "Vehicle.Speed" := PyInt 42 ]}; {[ "Vehicle.Speed" := PyInt 43 ]} ]
                [PyInt 42; PyInt 43])
    by (repeat constructor; vm_compute; reflexivity).
  destruct (speed_notifications_in_sequence (fun _ => EmptyString) _ _ runtime0 H)
    as (_ & _ & _ & _ & Hint).
  exact (Hint [42; 43]%Z eq_refl).
Defined.

(** ** The two callbacks of the speed signal *)



(** ** The app object over a whole run *)

Lemma for_each_dispatch_self (float_repr : float -> string) (events : list event) (r : Runtime) :
  self (snd (for_each events (dispatch float_repr) r)) = self r.
Proof.
  revert r. induction events as [|e rest IH]; intros r; [reflexivity|].
  cbn [for_each]. unfold bind.
  pose proof (dispatch_self float_repr e r) as He.
  destruct (dispatch float_repr e r) as [[[]|x|] r']; cbn in He |- *;
    rewrite <- He; [apply IH | reflexivity..].
Qed.

Lemma for_each_dispatch_subscriptions (float_repr : float -> string)
    (events : list event) (r : Runtime) :
  subscriptions (snd (for_each events (dispatch float_repr) r)) = subscriptions r.
Proof.
  revert r. induction events as [|e rest IH]; intros r; [reflexivity|].
  cbn [for_each]. unfold bind.
  assert (He : subscriptions (snd (dispatch float_repr e r)) = subscriptions r
               /\ fst (dispatch float_repr e r) = Return tt).
  { split; [|apply dispatch_returns].
    destruct e as [data|topic payload]; cbn.
    - generalize (subscriptions r) at 1. intros subs. revert r.
      induction subs as [|[p cb] subs IHs]; intros r; [reflexivity|].
      cbn [notify]. unfold bind.
      destruct (bool_decide (is_Some (data !! p))); cbn.
      + rewrite IHs. destruct cb; cbn [invoke].
        * pose proof (on_speed_change_beside float_repr data r) as H. now injection H.
        * pose proof (on_crashed_change_beside float_repr data r) as H. now injection H.
      + apply IHs.
    - destruct (String.eqb topic GET_SPEED_REQUEST_TOPIC); [|reflexivity].
      pose proof (on_get_speed_request_received_beside float_repr payload r) as H.
      now injection H. }
  destruct He as [Hs Hr].
  destruct (dispatch float_repr e r) as [o r']. cbn in Hs, Hr. subst o.
  rewrite IH. exact Hs.
Qed.

Lemma on_start_run (r : Runtime) :
  on_start r
  = (Return tt,
     set_subscriptions
       (subscriptions r ++
          [(get_path (Speed (App.Vehicle (self r))), cb_on_speed_change);
           (get_path (Speed (App.Vehicle (self r))), cb_on_crashed_change)])
       r).
Proof.
  unfold on_start, DataPoint_subscribe, bind, gets, modify. cbn.
  unfold set_subscriptions. cbn. now rewrite <- app_assoc.
Qed.

Lemma VehicleApp_run_state (float_repr : float -> string)
    (events : list event) (ending : run_ending) (r : Runtime) :
  snd (VehicleApp_run float_repr events ending r)
  = snd (for_each events (dispatch float_repr) (snd (on_start r))).
Proof.
  unfold VehicleApp_run. rewrite (bind_Return _ _ _ _ _ (on_start_run r)).
  rewrite on_start_run. cbn [snd]. unfold bind.
  pose proof (dispatch_all_returns float_repr events
                (set_subscriptions
                   (subscriptions r ++
                      [(get_path (Speed (App.Vehicle (self r))), cb_on_speed_change);
                       (get_path (Speed (App.Vehicle (self r))), cb_on_crashed_change)]) r)) as Hd.
  destruct (for_each events (dispatch float_repr) _) as [o r']. cbn in Hd. subst o.
  destruct ending; reflexivity.
Qed.

Lemma main_state (float_repr : float -> string)
    (events : list event) (ending : run_ending) (r : Runtime) :
  snd (main float_repr events ending r)
  = snd (VehicleApp_run float_repr events ending (started r)).
Proof.
  rewrite main_unfold. unfold bind at 1.
  destruct (VehicleApp_run float_repr events ending (started r)) as [[[]|e|] r1];
    [|reflexivity..].
  unfold bind. now rewrite load_global_app.
Qed.

(** X9. Whatever events arrive and however [run] ends, at the end of [main]
    the app object is the one [__init__] built over the module's [vehicle],
    and the subscriptions are the two of [on_start] added to those there
    were: no handler rebinds [self.Vehicle], and none subscribes again. *)
Theorem main_keeps_app (float_repr : float -> string)
    (events : list event) (ending : run_ending) (r : Runtime) :
  let r' := snd (main float_repr events ending r) in
  self r' = {| App.Vehicle := vehicle |}
  /\ subscriptions r'
     = subscriptions r ++
         [("Vehicle.Speed", cb_on_speed_change); ("Vehicle.Speed", cb_on_crashed_change)].
Proof.
  cbv zeta. rewrite main_state, VehicleApp_run_state.
  rewrite for_each_dispatch_self, for_each_dispatch_subscriptions.
  rewrite on_start_run. split; reflexivity.
Qed.

(** ** The log set-up and the rest of the file system *)

Lemma entry_get_set_ne (c c' : string) (x : node) (es : list (string * node)) :
  c <> c' -> entry_get c' (entry_set c x es) = entry_get c' es.
Proof.
  intros Hne. induction es as [|[n y] rest IH]; cbn.
  - destruct (String.eqb_spec c' c) as [->|_]; [contradiction | reflexivity].
  - destruct (String.eqb_spec c n) as [->|Hcn]; cbn.
    + destruct (String.eqb_spec c' n) as [->|_]; [contradiction | reflexivity].
    + now rewrite IH.
Qed.

Lemma fs_in_dir_outside (path : string) (p q : list string) f (n n' : node) :
  fs_in_dir path p f n = Return n' -> diverge p q -> lookup_path q n' = lookup_path q n.
Proof.
  intros Hrun Hd. revert n n' Hrun.
  induction Hd as [c c' p q Hne|c p q Hd IH]; intros n n' Hrun;
    destruct n as [?|es]; cbn in Hrun; try discriminate;
    destruct (entry_get c es) as [child|] eqn:Hc; try discriminate;
    destruct (fs_in_dir path p f child) as [child'| |] eqn:Hchild; try discriminate;
    injection Hrun as <-; cbn.
  - now rewrite (entry_get_set_ne _ _ _ _ Hne).
  - rewrite entry_get_set, Hc. now apply IH.
Qed.

Lemma fs_makedirs_outside (path : string) (p q : list string) (n n' : node) :
  fs_makedirs path p n = Return n' -> diverge p q -> lookup_path q n' = lookup_path q n.
Proof.
  intros Hrun Hd. revert n n' path Hrun.
  induction Hd as [c c' p q Hne|c p q Hd IH]; intros n n' path Hrun;
    destruct n as [?|es]; cbn [fs_makedirs] in Hrun; try discriminate;
    destruct (fs_makedirs (path_join path c) p (default (Dir []) (entry_get c es)))
      as [child'| |] eqn:Hchild;
    try discriminate; injection Hrun as <-; cbn.
  - now rewrite (entry_get_set_ne _ _ _ _ Hne).
  - rewrite entry_get_set. rewrite (IH _ _ _ Hchild).
    destruct (entry_get c es) as [child|]; [reflexivity|].
    cbn. destruct q; [inversion Hd | reflexivity].
Qed.

(** What [makedirs] leaves at the path it was given: the directory that was
    there, or a new, empty one. *)
Lemma fs_makedirs_lookup (path : string) (p : list string) (n n' : node) :
  fs_makedirs path p n = Return n' ->
  lookup_path p n'
  = Some (Dir match lookup_path p n with Some (Dir es) => es | _ => [] end).
Proof.
  revert n n' path. induction p as [|c p IH]; intros n n' path Hrun;
    destruct n as [?|es]; cbn [fs_makedirs] in Hrun; try discriminate.
  - now injection Hrun as <-.
  - destruct (fs_makedirs (path_join path c) p (default (Dir []) (entry_get c es)))
      as [child'| |] eqn:Hchild; try discriminate.
    injection Hrun as <-. cbn. rewrite entry_get_set, (IH _ _ _ Hchild).
    destruct (entry_get c es) as [child|]; [reflexivity|].
    cbn. destruct p; reflexivity.
Qed.

Lemma same_outside_refl (n : node) : same_outside_log_dir n n.
Proof. now intros q _. Qed.

Lemma same_outside_trans (n1 n2 n3 : node) :
  same_outside_log_dir n1 n2 -> same_outside_log_dir n2 n3 -> same_outside_log_dir n1 n3.
Proof. intros H12 H23 q Hq. now rewrite (H23 q Hq), (H12 q Hq). Qed.

Lemma on_fs_in_log_dir_outside (path : string) f (r : Runtime) :
  same_outside_log_dir (fs r) (fs (snd (on_fs (fs_in_dir path LOG_DIR f) r))).
Proof.
  unfold on_fs. destruct (fs_in_dir path LOG_DIR f (fs r)) as [n'| |] eqn:Hrun;
    cbn; [|apply same_outside_refl..].
  intros q Hq. exact (fs_in_dir_outside _ _ _ _ _ _ Hrun Hq).
Qed.

Lemma os_remove_outside (name : string) (r : Runtime) :
  valid_name name ->
  same_outside_log_dir (fs r) (fs (snd (os_remove (SPEED_LOG_PATH +:+ name) r))).
Proof.
  intros Hname. unfold os_remove, fs_remove. rewrite (parent_and_name_log _ Hname).
  apply on_fs_in_log_dir_outside.
Qed.

Lemma remove_loop_outside (names : list string) (r : Runtime) :
  Forall valid_name names ->
  same_outside_log_dir (fs r)
    (fs (snd (for_each names (fun file => os_remove (SPEED_LOG_PATH +:+ file)) r))).
Proof.
  revert r. induction names as [|name rest IH]; intros r Hnames; [apply same_outside_refl|].
  apply Forall_cons in Hnames as [Hname Hrest].
  cbn [for_each]. unfold bind.
  pose proof (os_remove_outside name r Hname) as Hstep.
  destruct (os_remove (SPEED_LOG_PATH +:+ name) r) as [[[]|e|] r1]; cbn in Hstep |- *;
    [|exact Hstep..].
  exact (same_outside_trans _ _ _ Hstep (IH r1 Hrest)).
Qed.

(** X10. The log set-up reaches nothing but the log directory: at every
    path that does not lead into it or out of it, the file system is the same
    after the set-up as before, whether the set-up completes or raises. *)
Theorem log_dir_setup_elsewhere (r : Runtime) (q : list string) :
  (forall es, lookup_path LOG_DIR (fs r) = Some (Dir es) -> Forall valid_name (map fst es)) ->
  diverge LOG_DIR q ->
  lookup_path q (fs (snd (log_dir_setup r))) = lookup_path q (fs r).
Proof.
  intros Hnames Hq. revert q Hq. change (same_outside_log_dir (fs r) (fs (snd (log_dir_setup r)))).
  destruct log_dir_names as (Hdn & Hsplit & Hsplit' & Hlog).
  unfold log_dir_setup. unfold bind at 1. unfold os_makedirs, on_fs. rewrite Hdn, Hsplit.
  destruct (fs_makedirs EmptyString LOG_DIR (fs r)) as [n1| |] eqn:Hmk;
    cbn [snd]; [|apply same_outside_refl..].
  assert (H1 : same_outside_log_dir (fs r) n1)
    by (intros q Hq; exact (fs_makedirs_outside _ _ _ _ _ Hmk Hq)).
  pose proof (fs_makedirs_lookup _ _ _ _ Hmk) as Hlook.
  unfold bind at 1. unfold os_listdir, fs_listdir. rewrite Hsplit'. cbn [fs set_fs].
  rewrite Hlook.
  assert (Hvalid : Forall valid_name
            (map fst match lookup_path LOG_DIR (fs r) with Some (Dir es) => es | _ => [] end)).
  { destruct (lookup_path LOG_DIR (fs r)) as [[?|es]|]; [constructor | now apply Hnames | constructor]. }
  unfold bind.
  pose proof (remove_loop_outside _ (set_fs n1 r) Hvalid) as H2.
  destruct (for_each _ _ (set_fs n1 r)) as [[[]|e|] r2]; cbn in H2 |- *.
  - unfold TimedRotatingFileHandler__init__, fs_open_append. rewrite Hlog.
    exact (same_outside_trans _ _ _ H1
             (same_outside_trans _ _ _ H2 (on_fs_in_log_dir_outside _ _ r2))).
  - exact (same_outside_trans _ _ _ H1 H2).
  - exact (same_outside_trans _ _ _ H1 H2).
Qed.

Lemma log_dir_setup_elsewhere_witness :
  lookup_path ["app"; "src"; "main.py"] (fs (snd (log_dir_setup runtime0)))
  = Some (File "import asyncio").
Proof.
  assert (Hnames : forall es, lookup_path LOG_DIR (fs runtime0) = Some (Dir es) ->
                              Forall valid_name (map fst es)).
  { intros es [= <-]. exact (proj1 (proj2 old_logs_wf)). }
  assert (Hq : diverge LOG_DIR ["app"; "src"; "main.py"])
    by (apply diverge_here; discriminate).
  exact (log_dir_setup_elsewhere runtime0 _ Hnames Hq).
Defined.

(** ** The log set-up where it cannot complete, and where there is nothing yet *)

(** The loop of the module leaves in the log directory what [unlink_each_left]
    says. *)
Lemma remove_loop_left (names : list string) (r : Runtime) (es : list (string * node)) :
  lookup_path LOG_DIR (fs r) = Some (Dir es) ->
  Forall valid_name names ->
  lookup_path LOG_DIR
    (fs (snd (for_each names (fun file => os_remove (SPEED_LOG_PATH +:+ file)) r)))
  = Some (Dir (unlink_each_left names es)).
Proof.
  revert r es. induction names as [|name rest IH]; intros r es Hdir Hnames; [exact Hdir|].
  apply Forall_cons in Hnames as [Hname Hrest].
  cbn [unlink_each_left for_each].
  destruct (unlink (SPEED_LOG_PATH +:+ name) name es) as [es1|e|] eqn:Hu.
  - destruct (fs_in_dir_Return (SPEED_LOG_PATH +:+ name) LOG_DIR _ _ _ _ Hdir Hu)
      as (n' & Hrun & Hlook).
    assert (Hstep : os_remove (SPEED_LOG_PATH +:+ name) r = (Return tt, set_fs n' r)).
    { unfold os_remove, on_fs, fs_remove. rewrite (parent_and_name_log _ Hname).
      now rewrite Hrun. }
    rewrite (bind_Return _ _ _ _ _ Hstep). now apply IH.
  - assert (Hstep : os_remove (SPEED_LOG_PATH +:+ name) r = (Raise e, r)).
    { unfold os_remove, on_fs, fs_remove. rewrite (parent_and_name_log _ Hname).
      now rewrite (fs_in_dir_Raise _ _ _ _ _ _ Hdir Hu). }
    rewrite (bind_Raise _ _ _ _ _ Hstep). exact Hdir.
  - now apply unlink_no_Pending in Hu.
Qed.

Lemma unlink_each_left_listing (files rest : list (string * node)) (d : string) (sub : list (string * node)) :
  NoDup (map fst (files ++ (d, Dir sub) :: rest)) ->
  Forall (fun e => is_file (snd e)) files ->
  unlink_each_left (map fst (files ++ (d, Dir sub) :: rest)) (files ++ (d, Dir sub) :: rest)
  = (d, Dir sub) :: rest
  /\ first_dir (files ++ (d, Dir sub) :: rest) = Some d.
Proof.
  induction files as [|[n x] files IH]; intros Hnd Hfiles.
  - cbn. unfold unlink. cbn. now rewrite String.eqb_refl.
  - apply Forall_cons in Hfiles as [Hx Hfiles]. destruct x as [content|?]; [|contradiction].
    cbn [app map fst] in Hnd. apply NoDup_cons in Hnd as [Hfresh Hnd].
    cbn [app map fst unlink_each_left first_dir]. unfold unlink. cbn [entry_get entry_del].
    rewrite String.eqb_refl. rewrite (entry_del_fresh _ _ Hfresh). now apply IH.
Qed.

(** X11. When the listing of the log directory reaches a subdirectory [d]
    after the regular files [files], the set-up has removed those files and
    raises [IsADirectoryError] for [d]: the module stops at import, and the
    directory keeps [d], untouched, and every entry listed after it. *)
Theorem log_dir_setup_stops_at_directory (r : Runtime)
    (files rest sub : list (string * node)) (d : string) :
  lookup_path LOG_DIR (fs r) = Some (Dir (files ++ (d, Dir sub) :: rest)) ->
  NoDup (map fst (files ++ (d, Dir sub) :: rest)) ->
  Forall valid_name (map fst (files ++ (d, Dir sub) :: rest)) ->
  Forall (fun e => is_file (snd e)) files ->
  fst (log_dir_setup r) = Raise (OSError "IsADirectoryError" (SPEED_LOG_PATH +:+ d))
  /\ lookup_path LOG_DIR (fs (snd (log_dir_setup r))) = Some (Dir ((d, Dir sub) :: rest))
  /\ outside_fs (snd (log_dir_setup r)) = outside_fs r.
Proof.
  intros Hdir Hnd Hnames Hfiles.
  destruct (unlink_each_left_listing files rest d sub Hnd Hfiles) as [Hleft Hfirst].
  destruct (log_dir_setup_run r _ Hdir Hnd Hnames) as (r' & Hout & Hrun).
  rewrite Hfirst in Hrun.
  split; [now rewrite Hrun|]. split; [|now rewrite Hrun].
  rewrite <- Hleft.
  destruct log_dir_names as (Hdn & Hsplit & Hsplit' & Hlog).
  clear Hrun. unfold log_dir_setup.
  assert (Hmk : os_makedirs (os_path_dirname SPEED_LOG_PATH) r = (Return tt, set_fs (fs r) r)).
  { unfold os_makedirs, on_fs. rewrite Hdn, Hsplit.
    now rewrite (fs_makedirs_existing _ _ _ _ Hdir). }
  rewrite (bind_Return _ _ _ _ _ Hmk).
  assert (Hls : os_listdir SPEED_LOG_PATH (set_fs (fs r) r)
                = (Return (map fst (files ++ (d, Dir sub) :: rest)), set_fs (fs r) r)).
  { unfold os_listdir, fs_listdir. rewrite Hsplit'. cbn [fs set_fs]. now rewrite Hdir. }
  rewrite (bind_Return _ _ _ _ _ Hls).
  pose proof (remove_loop_left _ (set_fs (fs r) r) _ Hdir Hnames) as Hl.
  destruct (remove_loop (map fst (files ++ (d, Dir sub) :: rest)) (set_fs (fs r) r) _ Hdir Hnames)
    as (r1 & _ & Hloop).
  rewrite (unlink_each_listing _ Hnd), Hfirst in Hloop.
  rewrite Hloop in Hl. rewrite (bind_Raise _ _ _ _ _ Hloop). exact Hl.
Qed.

Lemma log_dir_setup_stops_at_directory_witness :
  fst (log_dir_setup runtime_archive)
  = Raise (OSError "IsADirectoryError" "logs/vehicle/crash_diagnostic/archive")
  /\ lookup_path LOG_DIR (fs (snd (log_dir_setup runtime_archive)))
     = Some (Dir [("archive", Dir [("2023", File "kept")]);
                  ("speed.log.10-14-50", File "older line")]).
Proof.
  assert (Hnd : NoDup (map fst ([("speed.log", File "old line")] ++
                  ("archive", Dir [("2023", File "kept")])
                  :: [("speed.log.10-14-50", File "older line")])))
    by (apply (bool_decide_unpack _); vm_compute; exact I).
  assert (Hnames : Forall valid_name (map fst ([("speed.log", File "old line")] ++
                  ("archive", Dir [("2023", File "kept")])
                  :: [("speed.log.10-14-50", File "older line")])))
    by (repeat constructor; discriminate).
  assert (Hfiles : Forall (fun e : string * node => is_file (snd e)) [("speed.log", File "old line")])
    by (repeat constructor).
  destruct (log_dir_setup_stops_at_directory runtime_archive
              [("speed.log", File "old line")]
              [("speed.log.10-14-50", File "older line")]
              [("2023", File "kept")] "archive" eq_refl Hnd Hnames Hfiles)
    as (Hraise & Hleft & _).
  exact (conj Hraise Hleft).
Defined.

Lemma fs_makedirs_returns (path : string) (p : list string) (n : node) :
  (forall k c, lookup_path (take k p) n <> Some (File c)) ->
  exists n', fs_makedirs path p n = Return n'.
Proof.
  revert n path. induction p as [|c p IH]; intros n path Hfree.
  - destruct n as [content|es]; [now destruct (Hfree O content) | now eexists].
  - destruct n as [content|es]; [now destruct (Hfree O content)|].
    cbn [fs_makedirs].
    destruct (IH (default (Dir []) (entry_get c es)) (path_join path c)) as (child' & Hchild).
    + intros k c0. specialize (Hfree (S k) c0). cbn in Hfree.
      destruct (entry_get c es) as [child|]; [exact Hfree|].
      cbn. destruct (take k p); cbn; discriminate.
    + rewrite Hchild. now eexists.
Qed.

Lemma fs_makedirs_blocked (here : string) (p : list string) (n : node) (k : nat) (c : string) :
  lookup_path (take k p) n = Some (File c) ->
  fs_makedirs here p n
  = Raise (OSError (if (k <? length p)%nat then "NotADirectoryError" else "FileExistsError")
             (foldl path_join here (take (S k) p))).
Proof.
  revert n k here. induction p as [|x p IH]; intros n k here Hfile.
  - rewrite take_nil in Hfile. cbn in Hfile. injection Hfile as ->. now destruct k.
  - destruct n as [content|es].
    + destruct k; [reflexivity|]. discriminate.
    + destruct k as [|k]; [discriminate|]. cbn in Hfile.
      destruct (entry_get x es) as [child|] eqn:Hx; [|discriminate].
      cbn [fs_makedirs]. rewrite Hx.
      change (default (Dir []) (Some child)) with child.
      rewrite (IH child k _ Hfile). reflexivity.
Qed.

(** X12. Where a regular file sits on the way to the log directory, the
    set-up raises at its first statement, in the [mkdir] that meets the
    file, and has changed nothing: with [logs] a file,
    [NotADirectoryError] for [logs/vehicle]; with [logs/vehicle] a file,
    [NotADirectoryError] for [logs/vehicle/crash_diagnostic]; with
    [logs/vehicle/crash_diagnostic] itself a file, [FileExistsError] for
    it. *)
Theorem log_dir_setup_blocked (r : Runtime) (k : nat) (c : string) :
  lookup_path (take (S k) LOG_DIR) (fs r) = Some (File c) ->
  log_dir_setup r
  = (Raise match k with
           | 0%nat => OSError "NotADirectoryError" "logs/vehicle"
           | 1%nat => OSError "NotADirectoryError" "logs/vehicle/crash_diagnostic"
           | _ => OSError "FileExistsError" "logs/vehicle/crash_diagnostic"
           end,
     r).
Proof.
  intros Hfile. destruct log_dir_names as (Hdn & Hsplit & _ & _).
  unfold log_dir_setup. apply bind_Raise.
  unfold os_makedirs, on_fs. rewrite Hdn, Hsplit.
  rewrite (fs_makedirs_blocked _ _ _ _ _ Hfile).
  destruct k as [|[|[|k]]]; reflexivity.
Qed.

Lemma log_dir_setup_blocked_witness :
  log_dir_setup (set_fs (Dir [("logs", File "not a directory")]) runtime0)
  = (Raise (OSError "NotADirectoryError" "logs/vehicle"),
     set_fs (Dir [("logs", File "not a directory")]) runtime0).
Proof.
  exact (log_dir_setup_blocked (set_fs (Dir [("logs", File "not a directory")]) runtime0)
           0 "not a directory" eq_refl).
Defined.

(** X13. Where there is no log directory yet and no regular file in the way,
    the set-up makes the directory, finds nothing to remove and opens
    [speed.log]: it completes, the directory holds that one empty file, and
    nothing but the file system has changed. *)
Theorem log_dir_setup_creates (r : Runtime) :
  lookup_path LOG_DIR (fs r) = None ->
  (forall k c, lookup_path (take k LOG_DIR) (fs r) <> Some (File c)) ->
  fst (log_dir_setup r) = Return tt
  /\ lookup_path LOG_DIR (fs (snd (log_dir_setup r)))
     = Some (Dir [("speed.log", File EmptyString)])
  /\ outside_fs (snd (log_dir_setup r)) = outside_fs r.
Proof.
  intros Hnone Hfree. destruct log_dir_names as (Hdn & Hsplit & Hsplit' & Hlog).
  destruct (fs_makedirs_returns EmptyString LOG_DIR (fs r) Hfree)
    as (n1 & Hmk).
  pose proof (fs_makedirs_lookup _ _ _ _ Hmk) as Hlook. rewrite Hnone in Hlook.
  unfold log_dir_setup.
  assert (Hstep1 : os_makedirs (os_path_dirname SPEED_LOG_PATH) r = (Return tt, set_fs n1 r)).
  { unfold os_makedirs, on_fs. rewrite Hdn, Hsplit. now rewrite Hmk. }
  rewrite (bind_Return _ _ _ _ _ Hstep1).
  assert (Hstep2 : os_listdir SPEED_LOG_PATH (set_fs n1 r) = (Return [], set_fs n1 r)).
  { unfold os_listdir, fs_listdir. rewrite Hsplit'. cbn [fs set_fs]. now rewrite Hlook. }
  rewrite (bind_Return _ _ _ _ _ Hstep2). cbn [for_each].
  rewrite (bind_Return _ _ (set_fs n1 r) (set_fs n1 r) tt) by reflexivity.
  destruct (fs_in_dir_Return (SPEED_LOG_PATH +:+ SPEED_LOGGER_NAME +:+ ".log") LOG_DIR
              (create (SPEED_LOG_PATH +:+ SPEED_LOGGER_NAME +:+ ".log") "speed.log")
              n1 [] [("speed.log", File EmptyString)] Hlook eq_refl)
    as (n2 & Hrun & Hlook2).
  unfold TimedRotatingFileHandler__init__, on_fs, fs_open_append.
  rewrite Hlog. cbn [fs set_fs]. rewrite Hrun. cbn [fst snd fs set_fs].
  split; [reflexivity|]. split; [exact Hlook2 | reflexivity].
Qed.

Lemma log_dir_setup_creates_witness :
  fst (log_dir_setup runtime_fresh) = Return tt
  /\ lookup_path LOG_DIR (fs (snd (log_dir_setup runtime_fresh)))
     = Some (Dir [("speed.log", File EmptyString)]).
Proof.
  assert (Hfree : forall k c,
             lookup_path (take k LOG_DIR) (fs runtime_fresh) <> Some (File c)).
  { intros [|[|[|k]]] c; discriminate. }
  destruct (log_dir_setup_creates runtime_fresh eq_refl Hfree) as (Hret & Hlook & _).
  exact (conj Hret Hlook).
Defined.

(** ** The module as a whole *)

(** X14. The module never runs to its end. When the log set-up raises, the
    module raises the same at import time; when the set-up completes, the
    module ends as [main] does: in [NameError] for [app] once [run] has
    returned, in the exception of [run] when it raises, and not at all while
    [run] goes on. *)
Theorem module_body_outcome (float_repr : float -> string)
    (events : list event) (ending : run_ending) (r : Runtime) :
  fst (module_body float_repr events ending r)
  = match fst (log_dir_setup r) with
    | Return _ =>
        match ending with
        | RunReturns => Raise (NameError "app")
        | RunRaises e => Raise e
        | RunForever => Pending
        end
    | Raise e => Raise e
    | Pending => Pending
    end
  /\ fst (module_body float_repr events ending r) <> Return tt.
Proof.
  assert (H : fst (module_body float_repr events ending r)
              = match fst (log_dir_setup r) with
                | Return _ =>
                    match ending with
                    | RunReturns => Raise (NameError "app")
                    | RunRaises e => Raise e
                    | RunForever => Pending
                    end
                | Raise e => Raise e
                | Pending => Pending
                end).
  { unfold module_body, bind.
    destruct (log_dir_setup r) as [[[]|e|] r1]; cbn [fst]; [apply main_outcome | reflexivity..]. }
  split; [exact H|]. rewrite H.
  destruct (fst (log_dir_setup r)); [destruct ending|..]; discriminate.
Qed.

(** ** Integer speeds are told apart *)

Lemma length_append (a b : string) :
  String.length (a +:+ b) = (String.length a + String.length b)%nat.
Proof.
  induction a as [|x a IH]; [reflexivity|].
  change (S (String.length (a +:+ b)) = S (String.length a + String.length b)).
  now rewrite IH.
Qed.

Lemma append_inj_r (a b c : string) : a +:+ c = b +:+ c -> a = b.
Proof.
  revert b. induction a as [|x a IH]; intros [|y b] H.
  - reflexivity.
  - apply (f_equal String.length) in H. rewrite !length_append in H.
    cbn [String.length] in H. lia.
  - apply (f_equal String.length) in H. rewrite !length_append in H.
    cbn [String.length] in H. lia.
  - change (String x (a +:+ c) = String y (b +:+ c)) in H.
    injection H as -> H. f_equal. now apply IH.
Qed.

(** X15. The echo tells integer speeds apart: two notifications with integer
    speeds lead, from the same runtime, to the same published messages if and
    only if they carry the same speed. *)
Theorem integer_speeds_told_apart (float_repr : float -> string)
    (data1 data2 : DataPointReply) (z1 z2 : Z) (r : Runtime) :
  data1 !! get_path (Speed (App.Vehicle (self r))) = Some (PyInt z1) ->
  data2 !! get_path (Speed (App.Vehicle (self r))) = Some (PyInt z2) ->
  mqtt (snd (on_speed_change float_repr data1 r)) = mqtt (snd (on_speed_change float_repr data2 r))
  <-> z1 = z2.
Proof.
  intros H1 H2.
  rewrite (on_speed_change_run float_repr data1 _ r H1),
          (on_speed_change_run float_repr data2 _ r H2).
  cbn [snd mqtt set_mqtt]. split.
  - intros H. apply app_inv_head in H. injection H as H.
    change (int_repr z1 +:+ "}" = int_repr z2 +:+ "}") in H.
    apply append_inj_r in H. now apply int_repr_inj.
  - now intros ->.
Qed.

Lemma integer_speeds_told_apart_witness :
  mqtt (snd (on_speed_change (fun _ => EmptyString)
               {[ "Vehicle.Speed" := PyInt 42 ]} runtime0))
  = mqtt (snd (on_speed_change (fun _ => EmptyString)
                 {[ "Vehicle.Speed" := PyInt 42; "Vehicle.IsMoving" := PyBool true ]} runtime0)).
Proof.
  assert (H1 : ({[ "Vehicle.Speed" := PyInt 42 ]} : DataPointReply)
               !! get_path (Speed (App.Vehicle (self runtime0))) = Some (PyInt 42))
    by (vm_compute; reflexivity).
  assert (H2 : ({[ "Vehicle.Speed" := PyInt 42; "Vehicle.IsMoving" := PyBool true ]}
                 : DataPointReply)
               !! get_path (Speed (App.Vehicle (self runtime0))) = Some (PyInt 42))
    by (vm_compute; reflexivity).
  exact (proj2 (integer_speeds_told_apart (fun _ => EmptyString) _ _ 42 42 runtime0 H1 H2)
               eq_refl).
Defined.
